(** * Schema conversion between the Merlin schema and the TensorFlow-metadata
      schema: a shallow embedding of
      [merlin/graph/schema_io/tensorflow_metadata.py] and its properties. *)

From Stdlib Require Import String List ZArith Bool Lia DecimalString.
Import ListNotations.
Open Scope string_scope.
Open Scope Z_scope.

Set Implicit Arguments.

(** ** Python values *)

(** The JSON-like values a property mapping holds.  Floating-point numbers
    are left out; a Python dict is an association list in insertion order
    whose keys are pairwise distinct. *)
#[local] Unset Elimination Schemes.
Inductive value : Type :=
| VNone
| VBool (b : bool)
| VInt (z : Z)
| VStr (s : string)
| VList (l : list value)
| VDict (d : list (string * value)).
#[local] Set Elimination Schemes.

Definition pydict (V : Type) : Type := list (string * V).

(** Exceptions.  [Raise] is a [raise] statement of the source with its
    message; [Builtin] is an exception the interpreter raises itself, whose
    message is not modelled. *)
Inductive exn_kind : Type := TypeError | ValueError | AttributeError | KeyError.

Inductive exn : Type :=
| Raise (k : exn_kind) (msg : string)
| Builtin (k : exn_kind).

Inductive result (A : Type) : Type :=
| Ok (a : A)
| Err (e : exn).
Arguments Ok {A} a.
Arguments Err {A} e.

Definition rbind {A B} (m : result A) (k : A -> result B) : result B :=
  match m with
  | Ok a => k a
  | Err e => Err e
  end.

Notation "x <- m ;; k" := (rbind m (fun x => k))
  (at level 61, m at next level, right associativity).

Fixpoint mapM {A B} (f : A -> result B) (l : list A) : result (list B) :=
  match l with
  | [] => Ok []
  | a :: l' => b <- f a ;; bs <- mapM f l' ;; Ok (b :: bs)
  end.

(** ** Dictionaries *)

Module Dict.
Section Ops.
Context {V : Type}.

(** [d.get(k)], as an option. *)
Fixpoint get (k : string) (d : pydict V) : option V :=
  match d with
  | [] => None
  | (k', v) :: d' => if String.eqb k k' then Some v else get k d'
  end.

(** [d[k] = v]: an existing key keeps its position, a new one goes last. *)
Fixpoint set (k : string) (v : V) (d : pydict V) : pydict V :=
  match d with
  | [] => [(k, v)]
  | (k', v') :: d' =>
      if String.eqb k k' then (k', v) :: d' else (k', v') :: set k v d'
  end.

(** [del d[k]], doing nothing when the key is missing. *)
Fixpoint remove (k : string) (d : pydict V) : pydict V :=
  match d with
  | [] => []
  | (k', v') :: d' =>
      if String.eqb k k' then d' else (k', v') :: remove k d'
  end.

(** [d.get(k, default)]. *)
Definition get_default (k : string) (default : V) (d : pydict V) : V :=
  match get k d with
  | Some v => v
  | None => default
  end.

(** [d.pop(k, default)]: the value and the dictionary left behind. *)
Definition pop (k : string) (default : V) (d : pydict V) : V * pydict V :=
  (get_default k default d, remove k d).

(** [{k: v for k, v in d.items() if k != key}]. *)
Definition without (key : string) (d : pydict V) : pydict V :=
  filter (fun kv => negb (String.eqb (fst kv) key)) d.

Definition keys (d : pydict V) : list string := map fst d.
End Ops.
End Dict.

(** ** Truth value, equality and order of Python values *)

Definition truthy (v : value) : bool :=
  match v with
  | VNone => false
  | VBool b => b
  | VInt z => negb (z =? 0)
  | VStr s => negb (String.eqb s "")
  | VList l => match l with [] => false | _ => true end
  | VDict d => match d with [] => false | _ => true end
  end.

(** A [bool] is an [int] in Python: [True == 1]. *)
Definition as_number (v : value) : option Z :=
  match v with
  | VBool b => Some (if b then 1 else 0)
  | VInt z => Some z
  | _ => None
  end.

(** [a == b].  Numbers compare by value, lists element by element, dicts
    key by key whatever the order of insertion. *)
Fixpoint py_eq (a b : value) {struct a} : bool :=
  match a, b with
  | VNone, VNone => true
  | VBool x, _ =>
      match as_number b with
      | Some y => (if x then 1 else 0) =? y
      | None => false
      end
  | VInt x, _ =>
      match as_number b with
      | Some y => x =? y
      | None => false
      end
  | VStr s, VStr t => String.eqb s t
  | VList la, VList lb =>
      (fix go (la lb : list value) : bool :=
         match la, lb with
         | [], [] => true
         | x :: xs, y :: ys => py_eq x y && go xs ys
         | _, _ => false
         end) la lb
  | VDict da, VDict db =>
      Nat.eqb (length da) (length db) &&
      (fix go (da : list (string * value)) : bool :=
         match da with
         | [] => true
         | (k, v) :: r =>
             match Dict.get k db with
             | Some w => py_eq v w && go r
             | None => false
             end
         end) da
  | _, _ => false
  end.

(** [a < b]: numbers by value, strings and lists lexicographically; any
    other pair of operands is a [TypeError]. *)
Fixpoint py_lt (a b : value) {struct a} : result bool :=
  match a, b with
  | VBool x, _ =>
      match as_number b with
      | Some y => Ok ((if x then 1 else 0) <? y)
      | None => Err (Builtin TypeError)
      end
  | VInt x, _ =>
      match as_number b with
      | Some y => Ok (x <? y)
      | None => Err (Builtin TypeError)
      end
  | VStr s, VStr t => Ok (String.ltb s t)
  | VList la, VList lb =>
      (fix go (la lb : list value) : result bool :=
         match la, lb with
         | [], [] => Ok false
         | [], _ :: _ => Ok true
         | _ :: _, [] => Ok false
         | x :: xs, y :: ys => if py_eq x y then go xs ys else py_lt x y
         end) la lb
  | _, _ => Err (Builtin TypeError)
  end.

(** [v.get(k)] on an arbitrary value: only a dict has the method. *)
Definition py_get (v : value) (k : string) : result value :=
  match v with
  | VDict d => Ok (Dict.get_default k VNone d)
  | _ => Err (Builtin AttributeError)
  end.

(** ** The Merlin schema (internal model)

    [ColumnSchema], [Schema] and [Tags] are declared in
    [merlin/graph/schema.py] and [merlin/graph/tags.py], outside the module
    of the converter: the records follow the data model of the
    specification and hold the attributes the converter reads and writes;
    the tag enumeration is a parameter of the development. *)

(** A tag of a column: a member of the [Tags] enumeration or a plain string. *)
Inductive tag (Tags : Type) : Type :=
| TagEnum (member : Tags)
| TagStr (s : string).
Arguments TagEnum {Tags} member.
Arguments TagStr {Tags} s.

(** What the converter can see of a dtype object, in the order
    [_dtype_name] probes it. *)
Inductive dtype : Type :=
| DtKind (kind_name : string)
    (** has a [kind] attribute; [kind_name] is what numpy's [_kind_name]
        returns for it *)
| DtItem (item_type : string)
    (** has [item]; [item_type] is [type(dtype(1).item()).__name__] *)
| DtStr (s : string)
    (** a string *)
| DtNamed (name : string)
    (** anything else carrying [__name__] *)
| DtOther (repr : string).
    (** none of these, such as [None]; [repr] is how it prints *)

(** Modelled from the spec: the class [ColumnSchema] is missing.  A column
    has a name, tags, a dtype, a mapping of properties and the two flags,
    under the attribute names the converter uses; the flags hold whatever
    value they were given. *)
Module ColumnSchema.
Record t (Tags : Type) : Type := mk {
  name : string;
  tags : list (tag Tags);
  properties : pydict value;
  dtype : dtype;
  _is_list : value;
  _is_ragged : value
}.
Arguments mk {Tags}.
End ColumnSchema.

(** Modelled from the spec: the class [Schema] is missing.  A schema is a
    mapping from column names to columns, [column_schemas]. *)
Module MerlinSchema.
Record t (Tags : Type) : Type := mk {
  column_schemas : pydict (ColumnSchema.t Tags)
}.
Arguments mk {Tags}.
End MerlinSchema.

(** ** The TensorFlow-metadata schema (external model)

    The message classes come from [schema_bp.py], outside the module of the
    converter.  Each record follows the feature record of the specification
    and lists the fields the converter touches; a message field that was
    not set is [None]. *)

(** Modelled from the spec: the enumeration [FeatureType] is missing.  Its
    members [INT] and [FLOAT] count as true in a condition. *)
Inductive FeatureType : Type := UNDEFINED | BYTES | INT | FLOAT | STRUCT.

Definition FeatureType_eqb (a b : FeatureType) : bool :=
  match a, b with
  | UNDEFINED, UNDEFINED | BYTES, BYTES | INT, INT
  | FLOAT, FLOAT | STRUCT, STRUCT => true
  | _, _ => false
  end.

(** Modelled from the spec: the message [IntDomain] is missing; it has a
    name, the two bounds as they were given, and the categorical flag. *)
Module IntDomain.
Record t : Type := mk {
  name : string;
  min : value;
  max : value;
  is_categorical : bool
}.
End IntDomain.

(** Modelled from the spec: the message [FloatDomain] is missing; it has a
    name and the two bounds as they were given. *)
Module FloatDomain.
Record t : Type := mk {
  name : string;
  min : value;
  max : value
}.
End FloatDomain.

(** Modelled from the spec: the message [FixedShape] is missing; [dim] is
    its first field, which the converter sets to the length. *)
Module FixedShape.
Record t : Type := mk { dim : value }.
End FixedShape.

(** Modelled from the spec: the message [ValueCount] is missing; a range of
    counts. *)
Module ValueCount.
Record t : Type := mk { min : value; max : value }.
End ValueCount.

(** Modelled from the spec: the class [schema_bp.Any] is missing; the
    typed container of the extension slot, a type URL and the serialized
    message. *)
Module Any.
Record t (bytes : Type) : Type := mk {
  type_url : string;
  value : bytes
}.
Arguments mk {bytes}.
End Any.

(** Modelled from the spec: an untyped entry of the extension slot, an
    object whose [value] attribute is read as it is. *)
Module Entry.
Record t : Type := mk { value : value }.
End Entry.

(** What [annotation.extra_metadata] holds: one [schema_bp.Any], as
    [pb_feature] stores it and [merlin_properties] tests for first, or a
    list of entries. *)
Inductive ExtraMetadata (bytes : Type) : Type :=
| ExtraAny (a : Any.t bytes)
| ExtraList (l : list Entry.t).
Arguments ExtraAny {bytes} a.
Arguments ExtraList {bytes} l.

(** Modelled from the spec: the annotation block of a feature is missing;
    its tags and its extension slot. *)
Module Annotation.
Record t (bytes : Type) : Type := mk {
  tag : list string;
  extra_metadata : ExtraMetadata bytes
}.
Arguments mk {bytes}.
End Annotation.

(** Modelled from the spec: the message [Feature] is missing.  A feature
    record has a name, a type, a domain of either kind, a fixed shape or a
    value count, and an annotation. *)
Module Feature.
Record t (bytes : Type) : Type := mk {
  name : string;
  type : FeatureType;
  int_domain : option IntDomain.t;
  float_domain : option FloatDomain.t;
  shape : option FixedShape.t;
  value_count : option ValueCount.t;
  annotation : Annotation.t bytes
}.
Arguments mk {bytes}.

Section Setters.
Context {bytes : Type}.

(** [Feature(name=...)]: every other field at its default. *)
Definition new (name : string) : t bytes :=
  mk name UNDEFINED None None None None (Annotation.mk [] (ExtraList [])).

Definition set_type (f : t bytes) (x : FeatureType) : t bytes :=
  mk (name f) x (int_domain f) (float_domain f) (shape f) (value_count f)
     (annotation f).

Definition set_int_domain (f : t bytes) (x : IntDomain.t) : t bytes :=
  mk (name f) (type f) (Some x) (float_domain f) (shape f) (value_count f)
     (annotation f).

Definition set_float_domain (f : t bytes) (x : FloatDomain.t) : t bytes :=
  mk (name f) (type f) (int_domain f) (Some x) (shape f) (value_count f)
     (annotation f).

Definition set_shape (f : t bytes) (x : FixedShape.t) : t bytes :=
  mk (name f) (type f) (int_domain f) (float_domain f) (Some x)
     (value_count f) (annotation f).

Definition set_value_count (f : t bytes) (x : ValueCount.t) : t bytes :=
  mk (name f) (type f) (int_domain f) (float_domain f) (shape f) (Some x)
     (annotation f).

Definition set_annotation (f : t bytes) (x : Annotation.t bytes) : t bytes :=
  mk (name f) (type f) (int_domain f) (float_domain f) (shape f)
     (value_count f) x.
End Setters.
End Feature.

(** Modelled from the spec: the message [Schema] of [schema_bp.py] is
    missing; the features in wire order. *)
Module ProtoSchema.
Record t (bytes : Type) : Type := mk { feature : list (Feature.t bytes) }.
Arguments mk {bytes}.
End ProtoSchema.

(** The class of the converter, which wraps the message. *)
Module TensorflowMetadata.
Record t (bytes : Type) : Type := mk { proto_schema : ProtoSchema.t bytes }.
Arguments mk {bytes}.
End TensorflowMetadata.

(** A domain message of either kind, as [set_feature_domain] passes it on. *)
Inductive domain_message : Type :=
| IntDomainMsg (d : IntDomain.t)
| FloatDomainMsg (d : FloatDomain.t).

(** ** A state and exception monad

    The reverse direction works on objects it may update in place, so its
    functions take the state of the object and give it back with their
    outcome, also when they raise. *)

Definition St (S A : Type) : Type := S -> result A * S.

Definition sret {S A} (a : A) : St S A := fun s => (Ok a, s).

Definition sraise {S A} (e : exn) : St S A := fun s => (Err e, s).

Definition sbind {S A B} (m : St S A) (k : A -> St S B) : St S B :=
  fun s =>
    match m s with
    | (Ok a, s') => k a s'
    | (Err e, s') => (Err e, s')
    end.

Definition sget {S} : St S S := fun s => (Ok s, s).

Notation "x <~ m ;; k" := (sbind m (fun x => k))
  (at level 61, m at next level, right associativity).

(** ** The converter *)

(** The tag enumeration of [merlin/graph/tags.py], which the converter only
    uses through the member [Tags.CATEGORICAL], the [value] attribute of a
    member and the identity of members. *)
Class TagsEnum (Tags : Type) : Type := {
  Tags_eq_dec : forall a b : Tags, {a = b} + {a <> b};
  CATEGORICAL : Tags;
  Tags_value : Tags -> string
}.

(** The protobuf library, as far as the converter calls it.
    [Struct_pack d] is the [value] of the [Any] into which the [Struct] parsed
    from the dict [d] was packed, and [Struct_type_url] its [type_url];
    [Struct_unpack b] is [dict(s.items())] for the [Struct] [s] parsed from
    the bytes [b]. *)
Class StructCodec (bytes : Type) : Type := {
  Struct_type_url : string;
  Struct_pack : pydict value -> bytes;
  Struct_unpack : bytes -> result (pydict value)
}.

(** What a round trip needs of the library: unpacking what was packed gives
    the items back. *)
Class StructCodecLaw (bytes : Type) {codec : StructCodec bytes} : Prop :=
  Struct_unpack_pack : forall d, Struct_unpack (Struct_pack d) = Ok d.
Arguments StructCodecLaw bytes {codec}.

Section Converter.
Context {Tags : Type} {tags_enum : TagsEnum Tags}.
Context {bytes : Type} {codec : StructCodec bytes}.

Abbreviation ColumnSchema := (ColumnSchema.t Tags).
Abbreviation MerlinSchema := (MerlinSchema.t Tags).
Abbreviation Feature := (Feature.t bytes).
Abbreviation ProtoSchema := (ProtoSchema.t bytes).
Abbreviation TensorflowMetadata := (TensorflowMetadata.t bytes).

Definition DOMAIN_ATTRS : list (FeatureType * string) :=
  [(INT, "int_domain"); (FLOAT, "float_domain")].

Definition FEATURE_TYPES : pydict FeatureType :=
  [("int", INT); ("uint", INT); ("float", FLOAT)].

(** Lookup in a table keyed by feature type. *)
Fixpoint by_type {V} (k : FeatureType) (d : list (FeatureType * V)) : option V :=
  match d with
  | [] => None
  | (k', v) :: d' => if FeatureType_eqb k k' then Some v else by_type k d'
  end.

(** [d[k]] on such a table. *)
Definition by_type_item {V} (k : FeatureType) (d : list (FeatureType * V))
  : result V :=
  match by_type k d with
  | Some v => Ok v
  | None => Err (Builtin KeyError)
  end.

Definition tag_eqb (a b : tag Tags) : bool :=
  match a, b with
  | TagEnum x, TagEnum y => if Tags_eq_dec x y then true else false
  | TagStr s, TagStr u => String.eqb s u
  | _, _ => false
  end.

(** [x in tags]. *)
Definition tag_in (x : tag Tags) (tags : list (tag Tags)) : bool :=
  existsb (tag_eqb x) tags.

Definition pb_int_domain (column_schema : ColumnSchema)
  : result (option domain_message) :=
  let domain :=
    Dict.get_default "domain" VNone (ColumnSchema.properties column_schema) in
  match domain with
  | VNone => Ok None
  | _ =>
      min <- py_get domain "min" ;;
      max <- py_get domain "max" ;;
      Ok (Some (IntDomainMsg
        (IntDomain.mk
           (ColumnSchema.name column_schema)
           min
           max
           (tag_in (TagEnum CATEGORICAL) (ColumnSchema.tags column_schema)
            || tag_in (TagStr (Tags_value CATEGORICAL))
                      (ColumnSchema.tags column_schema)))))
  end.

Definition pb_float_domain (column_schema : ColumnSchema)
  : result (option domain_message) :=
  let domain :=
    Dict.get_default "domain" VNone (ColumnSchema.properties column_schema) in
  match domain with
  | VNone => Ok None
  | _ =>
      min <- py_get domain "min" ;;
      max <- py_get domain "max" ;;
      Ok (Some (FloatDomainMsg
        (FloatDomain.mk (ColumnSchema.name column_schema) min max)))
  end.

Definition _dtype_name (column_schema : ColumnSchema) : result string :=
  match ColumnSchema.dtype column_schema with
  | DtKind kind_name => Ok kind_name
  | DtItem item_type => Ok item_type
  | DtStr s => Ok s
  | DtNamed name => Ok name
  | DtOther repr =>
      Err (Raise TypeError ("unsupported dtype for column schema: " ++ repr))
  end.

Definition pb_extra_metadata (column_schema : ColumnSchema) : Any.t bytes :=
  let properties :=
    Dict.without "domain" (ColumnSchema.properties column_schema) in
  let properties :=
    Dict.set "is_list" (ColumnSchema._is_list column_schema) properties in
  let properties :=
    Dict.set "is_ragged" (ColumnSchema._is_ragged column_schema) properties in
  Any.mk Struct_type_url (Struct_pack properties).

Definition pb_tag (column_schema : ColumnSchema) : list string :=
  map (fun tag =>
         match tag with
         | TagEnum member => Tags_value member
         | TagStr s => s
         end)
      (ColumnSchema.tags column_schema).

(** [setattr(feature, domain_attr, domain)].  The tables of
    [set_feature_domain] pair each attribute with the constructor of its own
    message, so a message never meets the other attribute. *)
Definition setattr (feature : Feature) (attr : string) (domain : domain_message)
  : Feature :=
  match domain with
  | IntDomainMsg d =>
      if String.eqb attr "int_domain" then Feature.set_int_domain feature d
      else feature
  | FloatDomainMsg d =>
      if String.eqb attr "float_domain" then Feature.set_float_domain feature d
      else feature
  end.

(** Modelled from the spec: [proto_utils.has_field] is missing.  A domain
    sub-message is present when its field was set, and then
    [getattr(feature, attr)] is that message. *)
Definition getattr (feature : Feature) (attr : string) : option domain_message :=
  if String.eqb attr "int_domain" then
    option_map IntDomainMsg (Feature.int_domain feature)
  else if String.eqb attr "float_domain" then
    option_map FloatDomainMsg (Feature.float_domain feature)
  else None.

(** [if pb_type:] holds for both types of the table, and [if domain:] for
    every message a constructor returns: a message object counts as
    true. *)
Definition set_feature_domain (feature : Feature) (column_schema : ColumnSchema)
  : result Feature :=
  let DOMAIN_CONSTRUCTORS :=
    [(INT, pb_int_domain); (FLOAT, pb_float_domain)] in
  name <- _dtype_name column_schema ;;
  match Dict.get name FEATURE_TYPES with
  | Some pb_type =>
      let feature := Feature.set_type feature pb_type in
      domain_attr <- by_type_item pb_type DOMAIN_ATTRS ;;
      domain_fn <- by_type_item pb_type DOMAIN_CONSTRUCTORS ;;
      domain <- domain_fn column_schema ;;
      match domain with
      | Some domain => Ok (setattr feature domain_attr domain)
      | None => Ok feature
      end
  | None => Ok feature
  end.

(** [a and b and c], where only [c] can raise. *)
Definition and3 (a b : value) (c : result bool) : result bool :=
  if truthy a then if truthy b then c else Ok false else Ok false.

Definition pb_feature (column_schema : ColumnSchema) : result Feature :=
  let feature := Feature.new (ColumnSchema.name column_schema) in
  feature <- set_feature_domain feature column_schema ;;
  feature <-
    (if truthy (ColumnSchema._is_list column_schema) then
       let value_count :=
         Dict.get_default "value_count" (VDict [])
           (ColumnSchema.properties column_schema) in
       min_length <- py_get value_count "min" ;;
       max_length <- py_get value_count "max" ;;
       fixed <- and3 min_length max_length (Ok (py_eq min_length max_length)) ;;
       if fixed : bool then
         Ok (Feature.set_shape feature (FixedShape.mk min_length))
       else
         ranged <- and3 min_length max_length (py_lt min_length max_length) ;;
         if ranged : bool then
           Ok (Feature.set_value_count feature
                 (ValueCount.mk min_length max_length))
         else
           Ok (Feature.set_value_count feature
                 (ValueCount.mk (VInt 0) (VInt 0)))
     else Ok feature) ;;
  Ok (Feature.set_annotation feature
        (Annotation.mk (pb_tag column_schema)
           (ExtraAny (pb_extra_metadata column_schema)))).

Definition from_merlin_schema (schema : MerlinSchema) : result TensorflowMetadata :=
  features <- mapM pb_feature (map snd (MerlinSchema.column_schemas schema)) ;;
  Ok (TensorflowMetadata.mk (ProtoSchema.mk features)).

(** Both kinds of domain message have [min] and [max], so the test on
    these attributes always holds. *)
Definition merlin_domain (feature : Feature) : pydict value :=
  let domain := [] in
  match by_type (Feature.type feature) DOMAIN_ATTRS with
  | Some domain_attr =>
      match getattr feature domain_attr with
      | Some (IntDomainMsg domain_value) =>
          let domain := Dict.set "min" (IntDomain.min domain_value) domain in
          Dict.set "max" (IntDomain.max domain_value) domain
      | Some (FloatDomainMsg domain_value) =>
          let domain := Dict.set "min" (FloatDomain.min domain_value) domain in
          Dict.set "max" (FloatDomain.max domain_value) domain
      | None => domain
      end
  | None => domain
  end.

(** *** References into the feature

    [merlin_properties] hands out either a dict of its own making or the very
    object stored in [extra_metadata[0].value]; what is then done to the
    latter is done to the feature. *)

(** A reference to a dict: its items, and whether it is the dict held by the
    single entry of the feature ([shared]) or a fresh one. *)
Record dict_ref : Type := mk_dict_ref {
  shared : bool;
  items : pydict value
}.

(** A reference to an object that may be no dict at all. *)
Inductive object_ref : Type :=
| DictRef (r : dict_ref)
| Other (v : value).

Definition ref_of (v : value) : object_ref :=
  match v with
  | VDict d => DictRef (mk_dict_ref true d)
  | _ => Other v
  end.

(** Puts a value in place of [extra_metadata[0].value]. *)
Definition set_entry_value (feature : Feature) (v : value) : Feature :=
  match Annotation.extra_metadata (Feature.annotation feature) with
  | ExtraList (_ :: l) =>
      Feature.set_annotation feature
        (Annotation.mk (Annotation.tag (Feature.annotation feature))
           (ExtraList (Entry.mk v :: l)))
  | _ => feature
  end.

(** Makes the items of a reference current in the feature. *)
Definition store (r : dict_ref) : St Feature unit :=
  fun feature =>
    (Ok tt,
     if shared r then set_entry_value feature (VDict (items r)) else feature).

(** [properties[k] = v]. *)
Definition setitem (properties : object_ref) (k : string) (v : value)
  : St Feature object_ref :=
  match properties with
  | DictRef r =>
      let r' := mk_dict_ref (shared r) (Dict.set k v (items r)) in
      _ <~ store r' ;; sret (DictRef r')
  | Other _ => sraise (Builtin TypeError)
  end.

(** [properties.pop(k, default)]. *)
Definition pop (properties : object_ref) (k : string) (default : value)
  : St Feature (value * dict_ref) :=
  match properties with
  | DictRef r =>
      let (v, d) := Dict.pop k default (items r) in
      let r' := mk_dict_ref (shared r) d in
      _ <~ store r' ;; sret (v, r')
  | Other (VList _) => sraise (Builtin TypeError)
  | Other _ => sraise (Builtin AttributeError)
  end.

(** [str(n)] for a length. *)
Definition str_of_nat (n : nat) : string :=
  NilEmpty.string_of_uint (Nat.to_uint n).

Definition merlin_properties : St Feature object_ref :=
  feature <~ sget ;;
  let extra_metadata := Annotation.extra_metadata (Feature.annotation feature) in
  properties <~
    match extra_metadata with
    | ExtraAny a =>
        match Struct_unpack (Any.value a) with
        | Ok d => sret (DictRef (mk_dict_ref false d))
        | Err e => sraise e
        end
    | ExtraList l =>
        if (1 <? length l)%nat then
          sraise (Raise ValueError
            (Feature.name feature
             ++ ": extra_metadata should have 1 item, has             "
             ++ str_of_nat (length l)))
        else
          match l with
          | e :: _ => sret (ref_of (Entry.value e))
          | [] => sret (DictRef (mk_dict_ref false []))
          end
    end ;;
  let domain := merlin_domain feature in
  if truthy (VDict domain) then setitem properties "domain" (VDict domain)
  else sret properties.

(** [numpy.int] and [numpy.float] are the built-in classes, which only
    have a [__name__] for [_dtype_name] to read. *)
Definition merlin_dtype (feature : Feature) : dtype :=
  match Feature.type feature with
  | INT => DtNamed "int"
  | FLOAT => DtNamed "float"
  | _ => DtOther "None"
  end.

Definition merlin_column : St Feature ColumnSchema :=
  feature <~ sget ;;
  let name := Feature.name feature in
  let tags := map TagStr (Annotation.tag (Feature.annotation feature)) in
  properties <~ merlin_properties ;;
  let dtype := merlin_dtype feature in
  popped <~ pop properties "is_list" (VBool false) ;;
  let (is_list, properties) := popped : value * dict_ref in
  popped <~ pop (DictRef properties) "is_ragged" (VBool false) ;;
  let (is_ragged, properties) := popped : value * dict_ref in
  sret (ColumnSchema.mk name tags (items properties) dtype is_list is_ragged).

(** The loop of [to_merlin_schema] over the features, each with its state. *)
Fixpoint to_merlin_schema_loop (features : list Feature)
  (merlin_schema : MerlinSchema) : result MerlinSchema * list Feature :=
  match features with
  | [] => (Ok merlin_schema, [])
  | feature :: rest =>
      match merlin_column feature with
      | (Ok col_schema, feature') =>
          let merlin_schema :=
            MerlinSchema.mk
              (Dict.set (ColumnSchema.name col_schema) col_schema
                 (MerlinSchema.column_schemas merlin_schema)) in
          let (r, rest') := to_merlin_schema_loop rest merlin_schema in
          (r, feature' :: rest')
      | (Err e, feature') => (Err e, feature' :: rest)
      end
  end.

Definition to_merlin_schema : St TensorflowMetadata MerlinSchema :=
  fun self =>
    let merlin_schema := MerlinSchema.mk [] in
    let (r, features) :=
      to_merlin_schema_loop
        (ProtoSchema.feature (TensorflowMetadata.proto_schema self))
        merlin_schema in
    (r, TensorflowMetadata.mk (ProtoSchema.mk features)).

(** *** Columns the forward direction accepts *)

(** The feature type the dtype of a column stands for, if any. *)
Definition dtype_family (column_schema : ColumnSchema) : option FeatureType :=
  match _dtype_name column_schema with
  | Ok name => Dict.get name FEATURE_TYPES
  | Err _ => None
  end.

(** [properties["domain"]] is missing, [None] or a dict. *)
Definition domain_ok (column_schema : ColumnSchema) : bool :=
  match Dict.get_default "domain" VNone (ColumnSchema.properties column_schema) with
  | VNone | VDict _ => true
  | _ => false
  end.

Definition is_count (v : value) : bool :=
  match v with
  | VNone | VInt _ => true
  | _ => false
  end.

(** For a list column, [properties["value_count"]] is missing or a dict
    whose [min] and [max] are integers where given. *)
Definition value_count_ok (column_schema : ColumnSchema) : bool :=
  if truthy (ColumnSchema._is_list column_schema) then
    match Dict.get_default "value_count" (VDict [])
            (ColumnSchema.properties column_schema) with
    | VDict vc =>
        is_count (Dict.get_default "min" VNone vc)
        && is_count (Dict.get_default "max" VNone vc)
    | _ => false
    end
  else true.



(** The dict [pb_extra_metadata] packs. *)
Definition extra_properties (column_schema : ColumnSchema) : pydict value :=
  Dict.set "is_ragged" (ColumnSchema._is_ragged column_schema)
    (Dict.set "is_list" (ColumnSchema._is_list column_schema)
       (Dict.without "domain" (ColumnSchema.properties column_schema))).

(** A value count read as an integer, or as nothing. *)
Definition count (n : option Z) : value :=
  match n with
  | Some z => VInt z
  | None => VNone
  end.

(** The keys of a schema are the names of its columns, each used once. *)
Definition schema_wf (schema : MerlinSchema) : Prop :=
  NoDup (Dict.keys (MerlinSchema.column_schemas schema))
  /\ Forall (fun kc => fst kc = ColumnSchema.name (snd kc))
            (MerlinSchema.column_schemas schema).

(** The insertion [to_merlin_schema] makes for a column. *)
Definition add_column (acc : MerlinSchema) (c : ColumnSchema) : MerlinSchema :=
  MerlinSchema.mk
    (Dict.set (ColumnSchema.name c) c (MerlinSchema.column_schemas acc)).

(** The properties [merlin_properties] returns when it starts from the
    items [d]: the domain of the feature goes under ["domain"] if there is
    one. *)
Definition with_domain (feature : Feature) (d : pydict value) : pydict value :=
  if truthy (VDict (merlin_domain feature))
  then Dict.set "domain" (VDict (merlin_domain feature)) d
  else d.

(** The column [merlin_column] builds from a feature and the properties
    [d], flags included, that [merlin_properties] returned. *)
Definition column_of (feature : Feature) (d : pydict value) : ColumnSchema :=
  ColumnSchema.mk
    (Feature.name feature)
    (map TagStr (Annotation.tag (Feature.annotation feature)))
    (Dict.remove "is_ragged" (Dict.remove "is_list" d))
    (merlin_dtype feature)
    (Dict.get_default "is_list" (VBool false) d)
    (Dict.get_default "is_ragged" (VBool false) (Dict.remove "is_list" d)).


End Converter.

(** ** A concrete setting

    A two-member tag enumeration and a codec that keeps the dict,
    to run the converter on sample schemas. *)

Module Sample.

Inductive Tags : Type := Categorical | Continuous.

Definition Tags_dec (a b : Tags) : {a = b} + {a <> b}.
Proof. decide equality. Defined.

#[global] Instance tags_enum : TagsEnum Tags := {|
  Tags_eq_dec := Tags_dec;
  CATEGORICAL := Categorical;
  Tags_value := fun t =>
    match t with
    | Categorical => "categorical"
    | Continuous => "continuous"
    end
|}.

#[global] Instance codec : StructCodec (pydict value) := {|
  Struct_type_url := "type.googleapis.com/google.protobuf.Struct";
  Struct_pack := fun d => d;
  Struct_unpack := fun b => Ok b
|}.

#[global] Instance codec_law : StructCodecLaw (pydict value) :=
  fun d => eq_refl.

Definition bounds (lo hi : Z) : value :=
  VDict [("min", VInt lo); ("max", VInt hi)].

(** A scalar integer column with a domain. *)
Definition age : ColumnSchema.t Tags :=
  ColumnSchema.mk "age" [TagEnum Continuous]
    [("domain", bounds 0 120)] (DtKind "int") (VBool false) (VBool false).

(** A ragged list column of categorical ids, one to five per row. *)
Definition item_ids : ColumnSchema.t Tags :=
  ColumnSchema.mk "item_ids" [TagStr "item"; TagEnum Categorical]
    [("domain", bounds 0 9); ("value_count", bounds 1 5)]
    (DtItem "int") (VBool true) (VBool true).

(** A float column with a domain. *)
Definition price : ColumnSchema.t Tags :=
  ColumnSchema.mk "price" [TagEnum Continuous]
    [("domain", bounds 0 1000)] (DtStr "float") (VBool false) (VBool false).

(** An integer column without a domain. *)
Definition clicks : ColumnSchema.t Tags :=
  ColumnSchema.mk "clicks" [] [] (DtKind "uint") (VBool false) (VBool false).

(** A string column: its dtype has a name, which is no numeric one. *)
Definition title : ColumnSchema.t Tags :=
  ColumnSchema.mk "title" [] [] (DtKind "str") (VBool false) (VBool false).

(** A column whose dtype is [None]. *)
Definition untyped : ColumnSchema.t Tags :=
  ColumnSchema.mk "untyped" [] [] (DtOther "None") (VBool false) (VBool false).

(** A list column of zero to five values. *)
Definition history : ColumnSchema.t Tags :=
  ColumnSchema.mk "history" [] [("value_count", bounds 0 5)]
    (DtKind "int") (VBool true) (VBool true).

Definition schema : MerlinSchema.t Tags :=
  MerlinSchema.mk
    [("age", age); ("item_ids", item_ids); ("price", price); ("title", title)].


(** A feature in the older form, its properties in the single entry. *)
Definition legacy : Feature.t (pydict value) :=
  Feature.mk "legacy" INT (Some (IntDomain.mk "legacy" (VInt 0) (VInt 9) false))
    None None None
    (Annotation.mk ["categorical"]
       (ExtraList
          [Entry.mk (VDict [("is_list", VBool true); ("is_ragged", VBool false);
                            ("num_buckets", VInt 10)])])).

(** The same without a domain and without flags. *)
Definition legacy_plain : Feature.t (pydict value) :=
  Feature.mk "legacy_plain" UNDEFINED None None None None
    (Annotation.mk [] (ExtraList [Entry.mk (VDict [("num_buckets", VInt 10)])])).

(** No entry at all. *)
Definition bare : Feature.t (pydict value) :=
  Feature.mk "bare" UNDEFINED None None None None
    (Annotation.mk [] (ExtraList [])).

(** Two entries. *)
Definition ambiguous : Feature.t (pydict value) :=
  Feature.mk "ambiguous" INT None None None None
    (Annotation.mk []
       (ExtraList [Entry.mk (VDict []); Entry.mk (VDict [("a", VInt 1)])])).

(** Two features of one name, as [pb_feature] writes them. *)
Definition twice (n : Z) : Feature.t (pydict value) :=
  Feature.mk "twice" INT None None None None
    (Annotation.mk []
       (ExtraAny (Any.mk "type.googleapis.com/google.protobuf.Struct"
                    [("rank", VInt n)]))).

End Sample.

(** ** A codec that keeps numbers as doubles

    The [Struct] message of protobuf holds every number as a double.  The
    codec below does so with the integers of a mapping, at any depth, and
    keeps everything else.  A nested mapping or list is shown as the dict or
    list of its stored items; protobuf hands these out as [Struct] and
    [ListValue] objects, which the values here do not tell apart.  An
    integer too large for a double is not handled. *)
Module Doubles.

(** The integer a double holds after an integer was stored in it: the
    nearest one of at most 53 significant bits, a tie going to the even
    one. *)
Definition nearest_double (z : Z) : Z :=
  let a := Z.abs z in
  let e := Z.log2 a - 52 in
  if e <=? 0 then z
  else
    let q := Z.shiftr a e in
    let r := a - Z.shiftl q e in
    let half := Z.shiftl 1 (e - 1) in
    let q := if (half <? r) || ((r =? half) && Z.odd q) then q + 1 else q in
    Z.sgn z * Z.shiftl q e.

Fixpoint stored (v : value) : value :=
  match v with
  | VInt z => VInt (nearest_double z)
  | VList l => VList (map stored l)
  | VDict d =>
      VDict ((fix items (d : list (string * value)) : list (string * value) :=
                match d with
                | [] => []
                | (k, x) :: rest => (k, stored x) :: items rest
                end) d)
  | _ => v
  end.

(** The serialized message, known by the fields it holds. *)
Record payload : Type := mk_payload { fields : pydict value }.

Definition codec : StructCodec payload := {|
  Struct_type_url := "type.googleapis.com/google.protobuf.Struct";
  Struct_pack := fun d => mk_payload (map (fun kv => (fst kv, stored (snd kv))) d);
  Struct_unpack := fun b => Ok (fields b)
|}.

(** A list column of one to [2^53 + 1] values. *)
Definition wide : ColumnSchema.t Sample.Tags :=
  ColumnSchema.mk "wide" []
    [("value_count", Sample.bounds 1 9007199254740993)]
    (DtKind "int") (VBool true) (VBool true).

Definition schema : MerlinSchema.t Sample.Tags :=
  MerlinSchema.mk [("wide", wide)].

End Doubles.

(** ** Facts about dictionaries *)

Section DictFacts.
Context {V : Type}.
Implicit Types (k key : string) (d : pydict V).

Lemma dict_get_set_eq k (v : V) d : Dict.get k (Dict.set k v d) = Some v.
Proof.
  induction d as [|[k' v'] d IH]; simpl.
  - now rewrite String.eqb_refl.
  - destruct (String.eqb k k') eqn:E; simpl; rewrite E; auto.
Qed.

Lemma dict_get_set_neq k k' (v : V) d :
  k <> k' -> Dict.get k (Dict.set k' v d) = Dict.get k d.
Proof.
  intros N. apply String.eqb_neq in N.
  induction d as [|[k0 v0] d IH]; simpl.
  - now rewrite N.
  - destruct (String.eqb k' k0) eqn:E; simpl.
    + apply String.eqb_eq in E. subst k0. now rewrite N.
    + now rewrite IH.
Qed.

Lemma dict_get_remove_neq k k' d :
  k <> k' -> Dict.get k (Dict.remove k' d) = Dict.get k d.
Proof.
  intros N. apply String.eqb_neq in N.
  induction d as [|[k0 v0] d IH]; simpl; auto.
  destruct (String.eqb k' k0) eqn:E; simpl.
  - apply String.eqb_eq in E. subst k0. now rewrite N.
  - now rewrite IH.
Qed.

Lemma dict_get_without_neq k key d :
  k <> key -> Dict.get k (Dict.without key d) = Dict.get k d.
Proof.
  intros N. unfold Dict.without.
  induction d as [|[k0 v0] d IH]; simpl; auto.
  destruct (String.eqb k0 key) eqn:E; simpl.
  - apply String.eqb_eq in E. subst k0.
    apply String.eqb_neq in N. now rewrite N.
  - now rewrite IH.
Qed.



End DictFacts.

(** Folding the insertions of [to_merlin_schema]: the last column of a name
    is the one found under it. *)
Section LastWins.
Context {Tags : Type}.

Lemma fold_add_get_other k (cols : list (ColumnSchema.t Tags)) : forall acc,
  Forall (fun c => ColumnSchema.name c <> k) cols ->
  Dict.get k (MerlinSchema.column_schemas (fold_left add_column cols acc))
  = Dict.get k (MerlinSchema.column_schemas acc).
Proof.
  induction cols as [|c cols IH]; intros acc H; simpl; auto.
  inversion H as [|? ? Hc Hr]; subst.
  rewrite IH by assumption. simpl.
  apply dict_get_set_neq. congruence.
Qed.

Lemma fold_add_get_last pre (c : ColumnSchema.t Tags) post acc :
  Forall (fun c' => ColumnSchema.name c' <> ColumnSchema.name c) post ->
  Dict.get (ColumnSchema.name c)
    (MerlinSchema.column_schemas
       (fold_left add_column (pre ++ c :: post)%list acc))
  = Some c.
Proof.
  intros H. rewrite fold_left_app. simpl.
  rewrite fold_add_get_other by assumption. simpl.
  apply dict_get_set_eq.
Qed.

End LastWins.

(** ** Facts about the forward direction *)

(** Splits on the scrutinee of the first [match] of the goal. *)
Ltac split_match :=
  match goal with
  | |- context [match ?x with _ => _ end] => destruct x eqn:?
  end.

(** Splits on the innermost scrutinees of the goal, as long as there are
    any. *)
Ltac split_goal :=
  repeat match goal with
  | |- context [match ?x with _ => _ end] =>
      lazymatch x with
      | context [match _ with _ => _ end] => fail
      | _ => destruct x eqn:?; cbv beta iota
      end
  end.

(** Splits on the innermost scrutinees of the hypotheses, as long as there
    are any, and drops the cases that cannot be. *)
Ltac split_hyps :=
  repeat match goal with
  | H : context [match ?x with _ => _ end] |- _ =>
      lazymatch x with
      | context [match _ with _ => _ end] => fail
      | _ => destruct x eqn:?; cbv beta iota in *; try discriminate
      end
  end.

Section ForwardFacts.
Context {Tags : Type} {tags_enum : TagsEnum Tags}.
Context {bytes : Type} {codec : StructCodec bytes}.
Implicit Types (c : ColumnSchema.t Tags) (f : Feature.t bytes).

Lemma FEATURE_TYPES_range name t :
  Dict.get name FEATURE_TYPES = Some t -> t = INT \/ t = FLOAT.
Proof.
  unfold FEATURE_TYPES. simpl.
  repeat split_match; intros E; inversion E; auto.
Qed.

Lemma set_feature_domain_int f c :
  dtype_family c = Some INT ->
  set_feature_domain f c =
  (d <- pb_int_domain c ;;
   Ok (match d with
       | Some d => setattr (Feature.set_type f INT) "int_domain" d
       | None => Feature.set_type f INT
       end)).
Proof.
  unfold dtype_family, set_feature_domain.
  destruct (_dtype_name c); [|discriminate]. simpl.
  intros ->. simpl. destruct (pb_int_domain c) as [[d|]|]; reflexivity.
Qed.

Lemma set_feature_domain_float f c :
  dtype_family c = Some FLOAT ->
  set_feature_domain f c =
  (d <- pb_float_domain c ;;
   Ok (match d with
       | Some d => setattr (Feature.set_type f FLOAT) "float_domain" d
       | None => Feature.set_type f FLOAT
       end)).
Proof.
  unfold dtype_family, set_feature_domain.
  destruct (_dtype_name c); [|discriminate]. simpl.
  intros ->. simpl. destruct (pb_float_domain c) as [[d|]|]; reflexivity.
Qed.

Lemma set_feature_domain_other f c name :
  _dtype_name c = Ok name ->
  Dict.get name FEATURE_TYPES = None ->
  set_feature_domain f c = Ok f.
Proof.
  unfold set_feature_domain. intros -> E. cbn [rbind]. now rewrite E.
Qed.

Lemma dtype_family_cases c t :
  dtype_family c = Some t -> t = INT \/ t = FLOAT.
Proof.
  unfold dtype_family. destruct (_dtype_name c); [|discriminate].
  apply FEATURE_TYPES_range.
Qed.

(** A domain constructor gives a message of its own kind, named after the
    column. *)
Lemma pb_int_domain_Some c m :
  pb_int_domain c = Ok (Some m) ->
  exists dom,
    Dict.get_default "domain" VNone (ColumnSchema.properties c) = VDict dom
    /\ m = IntDomainMsg
             (IntDomain.mk (ColumnSchema.name c)
                (Dict.get_default "min" VNone dom)
                (Dict.get_default "max" VNone dom)
                (tag_in (TagEnum CATEGORICAL) (ColumnSchema.tags c)
                 || tag_in (TagStr (Tags_value CATEGORICAL))
                           (ColumnSchema.tags c))).
Proof.
  unfold pb_int_domain.
  destruct (Dict.get_default "domain" VNone (ColumnSchema.properties c));
    simpl; try discriminate.
  intros E. injection E as <-. eauto.
Qed.

Lemma pb_float_domain_Some c m :
  pb_float_domain c = Ok (Some m) ->
  exists dom,
    Dict.get_default "domain" VNone (ColumnSchema.properties c) = VDict dom
    /\ m = FloatDomainMsg
             (FloatDomain.mk (ColumnSchema.name c)
                (Dict.get_default "min" VNone dom)
                (Dict.get_default "max" VNone dom)).
Proof.
  unfold pb_float_domain.
  destruct (Dict.get_default "domain" VNone (ColumnSchema.properties c));
    simpl; try discriminate.
  intros E. injection E as <-. eauto.
Qed.

(** [set_feature_domain] touches the type and the domain of its own type,
    nothing else. *)
Lemma set_feature_domain_frame f c f' :
  set_feature_domain f c = Ok f' ->
  Feature.name f' = Feature.name f
  /\ Feature.shape f' = Feature.shape f
  /\ Feature.value_count f' = Feature.value_count f
  /\ Feature.annotation f' = Feature.annotation f.
Proof.
  destruct (dtype_family c) as [t|] eqn:F.
  - destruct (dtype_family_cases _ F); subst t.
    + rewrite set_feature_domain_int by assumption.
      destruct (pb_int_domain c) as [[m|]|] eqn:E; simpl; try discriminate;
        intros H; injection H as <-; auto.
      destruct (pb_int_domain_Some _ E) as (dom & _ & ->). simpl. auto.
    + rewrite set_feature_domain_float by assumption.
      destruct (pb_float_domain c) as [[m|]|] eqn:E; simpl; try discriminate;
        intros H; injection H as <-; auto.
      destruct (pb_float_domain_Some _ E) as (dom & _ & ->). simpl. auto.
  - unfold dtype_family in F. destruct (_dtype_name c) eqn:N.
    + rewrite (set_feature_domain_other _ _ N F). intros H. injection H as <-. auto.
    + unfold set_feature_domain. rewrite N. discriminate.
Qed.

(** What [pb_feature] returns, seen from the stage that sets the domain:
    the later stages keep the name, the type and the domains, and write the
    annotation. *)
Lemma pb_feature_inv c f :
  pb_feature c = Ok f ->
  exists f1,
    set_feature_domain (Feature.new (ColumnSchema.name c)) c = Ok f1
    /\ Feature.name f = ColumnSchema.name c
    /\ Feature.type f = Feature.type f1
    /\ Feature.int_domain f = Feature.int_domain f1
    /\ Feature.float_domain f = Feature.float_domain f1
    /\ Feature.annotation f =
       Annotation.mk (pb_tag c) (ExtraAny (pb_extra_metadata c)).
Proof.
  unfold pb_feature.
  destruct (set_feature_domain (Feature.new (ColumnSchema.name c)) c)
    as [f1|] eqn:D; [|discriminate].
  destruct (set_feature_domain_frame _ _ D) as (Hn & _). simpl in Hn.
  cbn [rbind]. intros H. exists f1. split; [reflexivity|].
  unfold and3, rbind in H. split_hyps;
    injection H as <-; simpl; rewrite ?Hn; auto.
Qed.

(** With a well-formed value count the stages after the domain cannot
    raise. *)
Lemma pb_feature_total c f1 :
  set_feature_domain (Feature.new (ColumnSchema.name c)) c = Ok f1 ->
  value_count_ok c = true ->
  exists f, pb_feature c = Ok f.
Proof.
  intros D W. unfold pb_feature. rewrite D. cbn [rbind].
  unfold value_count_ok in W.
  destruct (truthy (ColumnSchema._is_list c)); [|cbn [rbind]; eauto].
  destruct (Dict.get_default "value_count" (VDict []) (ColumnSchema.properties c))
    as [| | | | |vc]; try discriminate.
  cbn [py_get rbind].
  apply andb_prop in W. destruct W as [Wmin Wmax].
  destruct (Dict.get_default "min" VNone vc); try discriminate;
    destruct (Dict.get_default "max" VNone vc); try discriminate;
    cbn; unfold and3, rbind, truthy; split_goal; eauto.
Qed.

End ForwardFacts.

(** ** Facts about the reverse direction *)

Section ReverseFacts.
Context {Tags : Type} {bytes : Type} {codec : StructCodec bytes}.
Implicit Types (c : ColumnSchema.t Tags) (f : Feature.t bytes).

(** A feature whose slot holds an [Any] becomes the column of the unpacked
    items and is left as it was. *)
Lemma merlin_column_Any f a d :
  Annotation.extra_metadata (Feature.annotation f) = ExtraAny a ->
  Struct_unpack (Any.value a) = Ok d ->
  merlin_column (Tags:=Tags) f = (Ok (column_of f (with_domain f d)), f).
Proof.
  intros E U.
  unfold merlin_column, merlin_properties, sbind, sget, with_domain.
  rewrite E, U. unfold sret.
  destruct (truthy (VDict (merlin_domain f))); reflexivity.
Qed.

(** So does a feature whose slot holds no entry. *)
Lemma merlin_column_empty f :
  Annotation.extra_metadata (Feature.annotation f) = ExtraList [] ->
  merlin_column (Tags:=Tags) f = (Ok (column_of f (with_domain f [])), f).
Proof.
  intros E.
  unfold merlin_column, merlin_properties, sbind, sget, with_domain.
  rewrite E. cbn [length Nat.ltb Nat.leb]. unfold sret.
  destruct (truthy (VDict (merlin_domain f))); reflexivity.
Qed.

(** The column carries the name of its feature. *)
Lemma merlin_column_name f c :
  fst (merlin_column f) = Ok c -> ColumnSchema.name c = Feature.name f.
Proof.
  unfold merlin_column, merlin_properties, sbind, sget, sret, sraise,
    setitem, pop, store, ref_of.
  intros H. split_hyps; cbn in H; injection H as <-; reflexivity.
Qed.

Lemma to_merlin_schema_loop_ok fs : forall (cs : list (ColumnSchema.t Tags)) acc,
  Forall2 (fun f c => fst (merlin_column f) = Ok c) fs cs ->
  fst (to_merlin_schema_loop fs acc) = Ok (fold_left add_column cs acc).
Proof.
  induction fs as [|f fs IH]; intros cs acc H; inversion H; subst; simpl.
  - reflexivity.
  - destruct (merlin_column f) as [[c|e] f'] eqn:M; simpl in *; try discriminate.
    match goal with E : Ok _ = Ok _ |- _ => injection E as -> end.
    specialize (IH _ (add_column acc y) ltac:(eassumption)).
    unfold add_column in IH at 1.
    destruct (to_merlin_schema_loop fs _) as [r rest]. exact IH.
Qed.

Lemma to_merlin_schema_loop_err pre : forall f post e
    (cs : list (ColumnSchema.t Tags)) (acc : MerlinSchema.t Tags),
  Forall2 (fun f c => fst (merlin_column f) = Ok c) pre cs ->
  fst (merlin_column (Tags:=Tags) f) = Err e ->
  fst (to_merlin_schema_loop (pre ++ f :: post)%list acc) = Err e.
Proof.
  induction pre as [|g pre IH]; intros f post e cs acc H M;
    inversion H; subst; simpl.
  - destruct (merlin_column f) as [[c|e'] f']; simpl in *; congruence.
  - destruct (merlin_column g) as [[c|e'] g'] eqn:G; simpl in *; try discriminate.
    specialize (IH f post e _
      (MerlinSchema.mk (Dict.set (ColumnSchema.name c) c
                          (MerlinSchema.column_schemas acc)))
      ltac:(eassumption) M).
    destruct (to_merlin_schema_loop _ _) as [r rest]. exact IH.
Qed.

(** Features that come back unchanged one by one come back unchanged
    together. *)
Lemma to_merlin_schema_loop_frame fs : forall (acc : MerlinSchema.t Tags),
  Forall (fun f => snd (merlin_column (Tags:=Tags) f) = f) fs ->
  snd (to_merlin_schema_loop fs acc) = fs.
Proof.
  induction fs as [|f fs IH]; intros acc H; inversion H; subst; simpl.
  - reflexivity.
  - destruct (merlin_column f) as [[c|e] f'] eqn:M; simpl in *; subst.
    + specialize (IH (MerlinSchema.mk (Dict.set (ColumnSchema.name c) c
                          (MerlinSchema.column_schemas acc))) ltac:(assumption)).
      destruct (to_merlin_schema_loop fs _) as [r rest]. simpl in *. congruence.
    + reflexivity.
Qed.

(** Only a feature whose slot holds a single entry with a dict for value
    can come back changed. *)
Lemma merlin_column_frame f :
  (forall e d,
     Annotation.extra_metadata (Feature.annotation f) = ExtraList [e] ->
     Entry.value e <> VDict d) ->
  snd (merlin_column (Tags:=Tags) f) = f.
Proof.
  intros H.
  unfold merlin_column, merlin_properties, sbind, sget, sret, sraise.
  destruct (Annotation.extra_metadata (Feature.annotation f))
    as [a|[|e [|e' l]]] eqn:E; cbn [length Nat.ltb Nat.leb].
  - destruct (Struct_unpack (Any.value a)); [|reflexivity].
    destruct (truthy (VDict (merlin_domain f))); reflexivity.
  - destruct (truthy (VDict (merlin_domain f))); reflexivity.
  - specialize (H e). destruct (Entry.value e) as [| | | | |d];
      try (destruct (truthy (VDict (merlin_domain f))); reflexivity).
    now destruct (H d eq_refl).
  - reflexivity.
Qed.

(** A schema whose features all hold an [Any], as [from_merlin_schema]
    writes them, is left as it was by [to_merlin_schema]. *)
Lemma to_merlin_schema_frame_Any (tfm : TensorflowMetadata.t bytes) :
  Forall (fun f => exists a,
            Annotation.extra_metadata (Feature.annotation f) = ExtraAny a)
         (ProtoSchema.feature (TensorflowMetadata.proto_schema tfm)) ->
  snd (to_merlin_schema (Tags:=Tags) tfm) = tfm.
Proof.
  destruct tfm as [[fs]]. cbn [TensorflowMetadata.proto_schema ProtoSchema.feature].
  intros H. unfold to_merlin_schema.
  cbn [TensorflowMetadata.proto_schema ProtoSchema.feature].
  assert (snd (to_merlin_schema_loop fs (MerlinSchema.mk (Tags:=Tags) [])) = fs)
    as E.
  { apply to_merlin_schema_loop_frame.
    eapply Forall_impl; [|exact H]. intros f [a Ha].
    apply merlin_column_frame. intros e d He. congruence. }
  destruct (to_merlin_schema_loop fs _) as [r rest]. simpl in *. now subst.
Qed.

End ReverseFacts.

(** ** Facts about the round trip *)

Section RoundTripFacts.
Context {Tags : Type} {tags_enum : TagsEnum Tags}.
Context {bytes : Type} {codec : StructCodec bytes}.
Implicit Types (c : ColumnSchema.t Tags) (f : Feature.t bytes).

Lemma mapM_Forall2 {A B} (g : A -> result B) l : forall l',
  mapM g l = Ok l' -> Forall2 (fun a b => g a = Ok b) l l'.
Proof.
  induction l as [|a l IH]; simpl; intros l' H.
  - injection H as <-. constructor.
  - destruct (g a) as [b|] eqn:E; [|discriminate]. cbn [rbind] in H.
    destruct (mapM g l) as [bs|]; [|discriminate]. cbn [rbind] in H.
    injection H as <-. constructor; auto.
Qed.


Lemma mapM_err {A B} (g : A -> result B) pre : forall a post e,
  Forall (fun a => exists b, g a = Ok b) pre ->
  g a = Err e ->
  mapM g (pre ++ a :: post)%list = Err e.
Proof.
  induction pre as [|x pre IH]; intros a post e H E; simpl.
  - now rewrite E.
  - inversion H as [|? ? [b Hb] Hr]; subst. rewrite Hb. cbn [rbind].
    now rewrite (IH _ post _ Hr E).
Qed.



Lemma with_domain_get_other f d k :
  k <> "domain" ->
  Dict.get k (with_domain f d) = Dict.get k d.
Proof.
  intros N. unfold with_domain.
  destruct (truthy _); [apply dict_get_set_neq; assumption|reflexivity].
Qed.

(** The domain of the feature built from a typed column with a domain. *)
Lemma pb_feature_merlin_domain c f t dom :
  pb_feature c = Ok f ->
  dtype_family c = Some t ->
  Dict.get "domain" (ColumnSchema.properties c) = Some (VDict dom) ->
  merlin_domain f =
  [("min", Dict.get_default "min" VNone dom);
   ("max", Dict.get_default "max" VNone dom)].
Proof.
  intros P F G.
  destruct (pb_feature_inv _ P) as (f1 & D & _ & Ht & Hi & Hf & _).
  assert (Dict.get_default "domain" VNone (ColumnSchema.properties c) = VDict dom)
    as G' by (unfold Dict.get_default; now rewrite G).
  unfold merlin_domain, getattr. rewrite Ht, Hi, Hf.
  destruct (dtype_family_cases _ F); subst t.
  - rewrite set_feature_domain_int in D by assumption.
    unfold pb_int_domain in D. rewrite G' in D. simpl in D.
    injection D as <-. reflexivity.
  - rewrite set_feature_domain_float in D by assumption.
    unfold pb_float_domain in D. rewrite G' in D. simpl in D.
    injection D as <-. reflexivity.
Qed.

Context {codec_law : StructCodecLaw bytes}.






End RoundTripFacts.

(** ** The properties of the converter *)

Section Claims.
Context {Tags : Type} {tags_enum : TagsEnum Tags}.
Context {bytes : Type} {codec : StructCodec bytes}.
Implicit Types (c : ColumnSchema.t Tags) (f : Feature.t bytes).

Lemma tag_in_In (x : tag Tags) l : tag_in x l = true <-> In x l.
Proof.
  unfold tag_in. rewrite existsb_exists. split.
  - intros (y & Hy & E). destruct x as [a|s], y as [b|u]; simpl in E;
      try discriminate.
    + destruct (Tags_eq_dec a b); [now subst|discriminate].
    + apply String.eqb_eq in E. now subst.
  - intros H. exists x. split; [assumption|]. destruct x as [a|s]; simpl.
    + destruct (Tags_eq_dec a a); congruence.
    + apply String.eqb_refl.
Qed.

(** C9: a schema without columns becomes a schema without features, and a
    schema without features becomes a schema without columns (and stays as
    it was). *)
Theorem empty_schema_both_ways :
  from_merlin_schema (MerlinSchema.mk (Tags:=Tags) [])
  = Ok (TensorflowMetadata.mk (ProtoSchema.mk (bytes:=bytes) []))
  /\ to_merlin_schema (TensorflowMetadata.mk (ProtoSchema.mk (bytes:=bytes) []))
     = (Ok (MerlinSchema.mk (Tags:=Tags) []),
        TensorflowMetadata.mk (ProtoSchema.mk [])).
Proof. split; reflexivity. Qed.

(** C8: when several features bear one name and every feature converts,
    [to_merlin_schema] raises nothing and files under that name the column
    of the last of them. *)
Theorem duplicate_name_last_wins (pre post : list (Feature.t bytes)) f :
  (forall g, In g (pre ++ f :: post)%list ->
     exists c : ColumnSchema.t Tags, fst (merlin_column g) = Ok c) ->
  (forall g, In g post -> Feature.name g <> Feature.name f) ->
  exists (schema : MerlinSchema.t Tags) c,
    fst (to_merlin_schema
           (TensorflowMetadata.mk (ProtoSchema.mk (pre ++ f :: post)%list)))
    = Ok schema
    /\ fst (merlin_column f) = Ok c
    /\ Dict.get (Feature.name f) (MerlinSchema.column_schemas schema) = Some c.
Proof.
  intros Hall Hlast.
  assert (forall fs : list (Feature.t bytes),
    (forall g, In g fs ->
       exists c : ColumnSchema.t Tags, fst (merlin_column g) = Ok c) ->
    exists cs, Forall2 (fun g c => fst (merlin_column g) = Ok c) fs cs)
    as Hcols.
  { induction fs as [|g fs IH]; intros H.
    - exists []. constructor.
    - destruct (H g (or_introl eq_refl)) as [c Hc].
      destruct IH as [cs Hcs]; [intros; apply H; now right|].
      exists (c :: cs). now constructor. }
  destruct (Hcols _ Hall) as [cs Hcs].
  pose proof (to_merlin_schema_loop_ok (MerlinSchema.mk []) Hcs) as Hloop.
  apply Forall2_app_inv_l in Hcs.
  destruct Hcs as (cs1 & cs2 & _ & Htail & ->).
  inversion Htail as [|? c ? cs3 Hc Hpost]; subst.
  exists (fold_left add_column (cs1 ++ c :: cs3)%list (MerlinSchema.mk [])), c.
  split; [|split].
  - unfold to_merlin_schema. simpl.
    destruct (to_merlin_schema_loop _ _) as [r rest]. exact Hloop.
  - exact Hc.
  - rewrite <- (merlin_column_name _ Hc). apply fold_add_get_last.
    clear -Hpost Hlast Hc. rewrite (merlin_column_name _ Hc).
    induction Hpost as [|g c' l l' Hg _ IH]; constructor.
    + rewrite (merlin_column_name _ Hg). apply Hlast. now left.
    + apply IH. intros; apply Hlast. now right.
Qed.

(** C3: what [merlin_properties] makes of a slot that holds a list of
    entries.  Without entries the properties are a fresh dict, empty but
    for the domain of the feature; with one entry they are the very value of
    that entry; with more, a [ValueError] whose message starts with the name
    of the feature is raised, by [merlin_column] and by [to_merlin_schema]
    too when the features before it convert. *)
Theorem extension_slot_cases f (l : list Entry.t) :
  Annotation.extra_metadata (Feature.annotation f) = ExtraList l ->
  match l with
  | [] =>
      merlin_properties f
      = (Ok (DictRef (mk_dict_ref false (with_domain f []))), f)
  | [e] =>
      (merlin_domain f = [] ->
       merlin_properties f = (Ok (ref_of (Entry.value e)), f))
      /\ (forall d, Entry.value e = VDict d ->
          fst (merlin_properties f)
          = Ok (DictRef (mk_dict_ref true (with_domain f d))))
  | _ :: _ :: _ =>
      let e :=
        Raise ValueError
          (Feature.name f
           ++ ": extra_metadata should have 1 item, has             "
           ++ str_of_nat (length l)) in
      merlin_properties f = (Err e, f)
      /\ merlin_column (Tags:=Tags) f = (Err e, f)
      /\ forall pre post (cs : list (ColumnSchema.t Tags)),
           Forall2 (fun g c => fst (merlin_column g) = Ok c) pre cs ->
           fst (to_merlin_schema
                  (TensorflowMetadata.mk
                     (ProtoSchema.mk (pre ++ f :: post)%list)))
           = Err (A:=MerlinSchema.t Tags) e
  end.
Proof.
  intros E. destruct l as [|e [|e' l]].
  - unfold merlin_properties, sbind, sget, with_domain. rewrite E.
    cbn [length Nat.ltb Nat.leb].
    destruct (truthy (VDict (merlin_domain f))); reflexivity.
  - split.
    + intros D. unfold merlin_properties, sbind, sget. rewrite E, D.
      reflexivity.
    + intros d V. unfold merlin_properties, sbind, sget, with_domain.
      rewrite E, V. cbn [length Nat.ltb Nat.leb sret ref_of].
      destruct (truthy (VDict (merlin_domain f))); reflexivity.
  - cbv zeta.
    assert (merlin_properties f
            = (Err (Raise ValueError
                 (Feature.name f
                  ++ ": extra_metadata should have 1 item, has             "
                  ++ str_of_nat (length (e :: e' :: l)))), f)) as P.
    { unfold merlin_properties, sbind, sget. rewrite E. reflexivity. }
    assert (merlin_column (Tags:=Tags) f
            = (Err (Raise ValueError
                 (Feature.name f
                  ++ ": extra_metadata should have 1 item, has             "
                  ++ str_of_nat (length (e :: e' :: l)))), f)) as C.
    { unfold merlin_column, sbind at 1 2. unfold sget at 1. rewrite P.
      reflexivity. }
    split; [exact P|]. split; [exact C|].
    intros pre post cs Hpre. unfold to_merlin_schema. simpl.
    pose proof (@to_merlin_schema_loop_err _ _ _ pre f post _ cs
                  (MerlinSchema.mk []) Hpre (f_equal fst C)) as L.
    destruct (to_merlin_schema_loop _ _) as [r rest]. exact L.
Qed.

(** C2, as amended: the [TypeError] for an unsupported dtype is raised for a
    column whose dtype offers none of the forms [_dtype_name] reads, and
    then [from_merlin_schema] raises it as well when the columns before it
    convert; a column whose dtype has a name that is none of [int], [uint]
    and [float] is converted all the same, to a feature without a type and
    without a domain. *)
Theorem unsupported_dtype_amended c :
  (forall repr,
     ColumnSchema.dtype c = DtOther repr ->
     let e :=
       Raise TypeError ("unsupported dtype for column schema: " ++ repr) in
     pb_feature c = Err e
     /\ forall pre k post,
          Forall (fun kc => exists g, pb_feature (snd kc) = Ok g) pre ->
          from_merlin_schema (MerlinSchema.mk (pre ++ (k, c) :: post)%list)
          = Err e)
  /\ (forall name,
        _dtype_name c = Ok name ->
        Dict.get name FEATURE_TYPES = None ->
        value_count_ok c = true ->
        exists g,
          pb_feature c = Ok g
          /\ Feature.type g = UNDEFINED
          /\ Feature.int_domain g = None
          /\ Feature.float_domain g = None).
Proof.
  split.
  - intros repr D. cbv zeta.
    assert (pb_feature c
            = Err (Raise TypeError
                     ("unsupported dtype for column schema: " ++ repr))) as P.
    { unfold pb_feature, set_feature_domain, _dtype_name. rewrite D.
      reflexivity. }
    split; [exact P|].
    intros pre k post Hpre. unfold from_merlin_schema.
    cbn [MerlinSchema.column_schemas]. rewrite map_app. cbn [map snd].
    erewrite mapM_err; [reflexivity| |exact P].
    apply Forall_forall. intros x Hx. apply in_map_iff in Hx.
    destruct Hx as (kc & <- & Hin).
    rewrite Forall_forall in Hpre. now apply Hpre.
  - intros name N F W.
    pose proof (set_feature_domain_other
                  (Feature.new (bytes:=bytes) (ColumnSchema.name c)) _ N F)
      as D.
    destruct (pb_feature_total _ D W) as [g P].
    exists g. split; [assumption|].
    destruct (pb_feature_inv _ P) as (f1 & D' & _ & Ht & Hi & Hf & _).
    rewrite D in D'. injection D' as <-.
    rewrite Ht, Hi, Hf. auto.
Qed.

(** C4, as amended: for a list column whose value count is a dict with
    integers (or nothing) under [min] and [max], [pb_feature] raises nothing
    once the domain is set, and it writes a fixed shape of that length when
    both are given, equal and not zero, the range when both are given, not
    zero and [min < max], and the value count from 0 to 0 in every other
    case, that of a zero [min] below [max] included. *)
Theorem value_count_mapping c f1 vc (lo hi : option Z) :
  truthy (ColumnSchema._is_list c) = true ->
  Dict.get_default "value_count" (VDict []) (ColumnSchema.properties c)
  = VDict vc ->
  Dict.get_default "min" VNone vc = count lo ->
  Dict.get_default "max" VNone vc = count hi ->
  set_feature_domain (Feature.new (ColumnSchema.name c)) c = Ok f1 ->
  exists g,
    pb_feature c = Ok g
    /\ (forall a,
          lo = Some a -> hi = Some a -> a <> 0 ->
          Feature.shape g = Some (FixedShape.mk (VInt a))
          /\ Feature.value_count g = None)
    /\ (forall a b,
          lo = Some a -> hi = Some b -> a <> 0 -> b <> 0 -> a < b ->
          Feature.shape g = None
          /\ Feature.value_count g = Some (ValueCount.mk (VInt a) (VInt b)))
    /\ (lo = None \/ hi = None \/ lo = Some 0 \/ hi = Some 0
        \/ (exists a b, lo = Some a /\ hi = Some b /\ b < a) ->
        Feature.shape g = None
        /\ Feature.value_count g = Some (ValueCount.mk (VInt 0) (VInt 0))).
Proof.
  intros L V Hlo Hhi D.
  destruct (set_feature_domain_frame _ _ D) as (_ & Hs & Hv & _).
  simpl in Hs, Hv.
  unfold pb_feature. rewrite D, L, V. cbn [rbind py_get]. rewrite Hlo, Hhi.
  destruct lo as [a|], hi as [b|]; simpl; unfold and3, rbind; simpl;
    split_goal;
    (eexists; split; [reflexivity|]); simpl; rewrite ?Hs, ?Hv;
    repeat match goal with
    | H : negb _ = true |- _ => apply negb_true_iff in H
    | H : negb _ = false |- _ => apply negb_false_iff in H
    | H : (_ =? _) = true |- _ => apply Z.eqb_eq in H
    | H : (_ =? _) = false |- _ => apply Z.eqb_neq in H
    | H : (_ <? _) = true |- _ => apply Z.ltb_lt in H
    | H : (_ <? _) = false |- _ => apply Z.ltb_ge in H
    end;
    repeat split; intros;
    repeat match goal with
    | H : Some _ = Some _ |- _ => injection H as H
    | H : _ \/ _ |- _ => destruct H
    | H : exists _, _ |- _ => destruct H
    | H : _ /\ _ |- _ => destruct H
    end;
    subst; try discriminate; try congruence; try lia.
Qed.

(** C5: the [int_domain] written for an integer column with a domain is
    categorical exactly when the tags of the column hold the member
    [Tags.CATEGORICAL] or its string value. *)
Theorem int_domain_is_categorical c dom :
  dtype_family c = Some INT ->
  Dict.get "domain" (ColumnSchema.properties c) = Some (VDict dom) ->
  value_count_ok c = true ->
  exists g d,
    pb_feature c = Ok g
    /\ Feature.int_domain g = Some d
    /\ (IntDomain.is_categorical d = true <->
        In (TagEnum CATEGORICAL) (ColumnSchema.tags c)
        \/ In (TagStr (Tags_value CATEGORICAL)) (ColumnSchema.tags c)).
Proof.
  intros F G W.
  assert (Dict.get_default "domain" VNone (ColumnSchema.properties c) = VDict dom)
    as G' by (unfold Dict.get_default; now rewrite G).
  pose proof (set_feature_domain_int
                (Feature.new (bytes:=bytes) (ColumnSchema.name c)) _ F) as D.
  unfold pb_int_domain in D. rewrite G' in D. simpl in D.
  destruct (pb_feature_total _ D W) as [g P].
  destruct (pb_feature_inv _ P) as (f1 & D' & _ & _ & Hi & _).
  rewrite D in D'. injection D' as <-. simpl in Hi.
  eexists g, _. split; [exact P|]. split; [exact Hi|].
  simpl. rewrite orb_true_iff, !tag_in_In. reflexivity.
Qed.

(** C7: a column of an integer or float dtype whose properties have no
    ["domain"] becomes a feature of that type without any domain, and
    nothing is raised; a float column with a domain gets a [float_domain]
    of the name, [min] and [max], and no [int_domain]. *)
Theorem domain_block_when_present c t :
  dtype_family c = Some t ->
  value_count_ok c = true ->
  (Dict.get "domain" (ColumnSchema.properties c) = None ->
   exists g,
     pb_feature c = Ok g
     /\ Feature.type g = t
     /\ Feature.int_domain g = None
     /\ Feature.float_domain g = None)
  /\ (t = FLOAT ->
      forall dom,
        Dict.get "domain" (ColumnSchema.properties c) = Some (VDict dom) ->
        exists g,
          pb_feature c = Ok g
          /\ Feature.type g = FLOAT
          /\ Feature.int_domain g = None
          /\ Feature.float_domain g
             = Some (FloatDomain.mk (ColumnSchema.name c)
                       (Dict.get_default "min" VNone dom)
                       (Dict.get_default "max" VNone dom))).
Proof.
  intros F W. split.
  - intros G.
    assert (Dict.get_default "domain" VNone (ColumnSchema.properties c) = VNone)
      as G' by (unfold Dict.get_default; now rewrite G).
    assert (set_feature_domain
              (Feature.new (bytes:=bytes) (ColumnSchema.name c)) c
            = Ok (Feature.set_type (Feature.new (ColumnSchema.name c)) t))
      as D.
    { destruct (dtype_family_cases _ F); subst t.
      - rewrite set_feature_domain_int by assumption.
        unfold pb_int_domain. now rewrite G'.
      - rewrite set_feature_domain_float by assumption.
        unfold pb_float_domain. now rewrite G'. }
    destruct (pb_feature_total _ D W) as [g P].
    destruct (pb_feature_inv _ P) as (f1 & D' & _ & Ht & Hi & Hf & _).
    rewrite D in D'. injection D' as <-. eauto.
  - intros -> dom G.
    assert (Dict.get_default "domain" VNone (ColumnSchema.properties c) = VDict dom)
      as G' by (unfold Dict.get_default; now rewrite G).
    pose proof (set_feature_domain_float
                  (Feature.new (bytes:=bytes) (ColumnSchema.name c)) _ F) as D.
    unfold pb_float_domain in D. rewrite G' in D. simpl in D.
    destruct (pb_feature_total _ D W) as [g P].
    destruct (pb_feature_inv _ P) as (f1 & D' & _ & Ht & Hi & Hf & _).
    rewrite D in D'. injection D' as <-. eauto.
Qed.

Context {codec_law : StructCodecLaw bytes}.


End Claims.

(** ** The properties on the sample schemas *)



(** C2 fails on a string column: its dtype is of neither family, and it is
    converted, alone or in a schema, to a feature without a type. *)
Lemma unsupported_dtype_counterexample :
  dtype_family Sample.title = None
  /\ pb_feature (bytes:=pydict value) Sample.title
     = Ok (Feature.mk "title" UNDEFINED None None None None
             (Annotation.mk []
                (ExtraAny (Any.mk "type.googleapis.com/google.protobuf.Struct"
                             [("is_list", VBool false);
                              ("is_ragged", VBool false)]))))
  /\ (forall e, pb_feature (bytes:=pydict value) Sample.title <> Err e)
  /\ exists tfm : TensorflowMetadata.t (pydict value),
       from_merlin_schema (MerlinSchema.mk [("title", Sample.title)]) = Ok tfm.
Proof.
  repeat split; try discriminate. eexists. reflexivity.
Qed.

(** The column whose dtype is [None] is refused. *)
Example pb_feature_untyped :
  pb_feature (bytes:=pydict value) Sample.untyped
  = Err (Raise TypeError "unsupported dtype for column schema: None").
Proof. reflexivity. Qed.

(** C4 fails on a list column of zero to five values: both bounds are
    given and [min < max], yet the feature gets the value count from 0 to
    0, not the range. *)
Lemma value_count_counterexample :
  truthy (ColumnSchema._is_list Sample.history) = true
  /\ Dict.get "value_count" (ColumnSchema.properties Sample.history)
     = Some (VDict [("min", VInt 0); ("max", VInt 5)])
  /\ exists g,
       pb_feature (bytes:=pydict value) Sample.history = Ok g
       /\ Feature.shape g = None
       /\ Feature.value_count g = Some (ValueCount.mk (VInt 0) (VInt 0))
       /\ Feature.value_count g <> Some (ValueCount.mk (VInt 0) (VInt 5)).
Proof.
  repeat split. eexists. repeat split. discriminate.
Qed.

(** C4, as amended, on the list column of one to five ids: the range. *)
Lemma value_count_mapping_witness :
  truthy (ColumnSchema._is_list Sample.item_ids) = true
  /\ Dict.get_default "value_count" (VDict [])
       (ColumnSchema.properties Sample.item_ids)
     = Sample.bounds 1 5
  /\ exists g,
       pb_feature (bytes:=pydict value) Sample.item_ids = Ok g
       /\ Feature.shape g = None
       /\ Feature.value_count g = Some (ValueCount.mk (VInt 1) (VInt 5)).
Proof.
  split; [reflexivity|]. split; [reflexivity|].
  destruct (value_count_mapping (bytes:=pydict value) Sample.item_ids
              (vc := [("min", VInt 1); ("max", VInt 5)]) (Some 1) (Some 5)
              eq_refl eq_refl eq_refl eq_refl eq_refl)
    as (g & P & _ & Hrange & _).
  exists g. split; [exact P|].
  apply (Hrange 1 5 eq_refl eq_refl); lia.
Defined.

(** C5 on the same column, tagged with the member [Categorical]. *)
Lemma int_domain_is_categorical_witness :
  dtype_family Sample.item_ids = Some INT
  /\ exists g d,
       pb_feature (bytes:=pydict value) Sample.item_ids = Ok g
       /\ Feature.int_domain g = Some d
       /\ IntDomain.is_categorical d = true.
Proof.
  split; [reflexivity|].
  destruct (int_domain_is_categorical (bytes:=pydict value) Sample.item_ids
              (dom := [("min", VInt 0); ("max", VInt 9)])
              eq_refl eq_refl eq_refl)
    as (g & d & P & Hi & Hc).
  exists g, d. split; [exact P|]. split; [exact Hi|].
  apply Hc. left. simpl. right. left. reflexivity.
Defined.

(** C7 on the float column, which has a domain, and on the integer column
    that has none. *)
Lemma domain_block_when_present_witness :
  (dtype_family Sample.price = Some FLOAT
   /\ value_count_ok Sample.price = true
   /\ exists g,
        pb_feature (bytes:=pydict value) Sample.price = Ok g
        /\ Feature.type g = FLOAT
        /\ Feature.int_domain g = None
        /\ Feature.float_domain g
           = Some (FloatDomain.mk "price" (VInt 0) (VInt 1000)))
  /\ (dtype_family Sample.clicks = Some INT
      /\ value_count_ok Sample.clicks = true
      /\ exists g,
           pb_feature (bytes:=pydict value) Sample.clicks = Ok g
           /\ Feature.type g = INT
           /\ Feature.int_domain g = None
           /\ Feature.float_domain g = None).
Proof.
  split; (split; [reflexivity|]); (split; [reflexivity|]).
  - destruct (domain_block_when_present (bytes:=pydict value) Sample.price
                eq_refl eq_refl) as [_ H].
    exact (H eq_refl _ eq_refl).
  - destruct (domain_block_when_present (bytes:=pydict value) Sample.clicks
                eq_refl eq_refl) as [H _].
    exact (H eq_refl).
Defined.

(** C8 on four features, the first and the third of one name: the column
    filed under that name is the one of the third. *)
Lemma duplicate_name_last_wins_witness :
  exists (schema : MerlinSchema.t Sample.Tags) c,
    fst (to_merlin_schema
           (TensorflowMetadata.mk
              (ProtoSchema.mk
                 [Sample.twice 1; Sample.legacy_plain; Sample.twice 2;
                  Sample.bare])))
    = Ok schema
    /\ Dict.get "twice" (MerlinSchema.column_schemas schema) = Some c
    /\ ColumnSchema.properties c = [("rank", VInt 2)].
Proof.
  destruct (duplicate_name_last_wins (Tags:=Sample.Tags)
              [Sample.twice 1; Sample.legacy_plain] [Sample.bare]
              (Sample.twice 2))
    as (schema & c & Hto & Hc & G).
  - intros g [<-|[<-|[<-|[<-|[]]]]]; eexists; reflexivity.
  - intros g [<-|[]]. discriminate.
  - exists schema, c. split; [exact Hto|]. split; [exact G|].
    injection Hc as <-. reflexivity.
Defined.

(** C3 on a feature with two entries. *)
Lemma extension_slot_cases_witness :
  Annotation.extra_metadata (Feature.annotation Sample.ambiguous)
  = ExtraList [Entry.mk (VDict []); Entry.mk (VDict [("a", VInt 1)])]
  /\ merlin_column (Tags:=Sample.Tags) Sample.ambiguous
     = (Err (Raise ValueError
               "ambiguous: extra_metadata should have 1 item, has             2"),
        Sample.ambiguous).
Proof.
  split; [reflexivity|].
  destruct (extension_slot_cases (Tags:=Sample.Tags) Sample.ambiguous eq_refl)
    as (_ & C & _).
  exact C.
Defined.

(** C6 fails for the reverse direction on a feature in the older form:
    the conversion succeeds, and the dict of the entry has lost both flags
    and gained the domain. *)
Theorem to_merlin_schema_updates_entry :
  exists (schema : MerlinSchema.t Sample.Tags) tfm' g,
    to_merlin_schema (TensorflowMetadata.mk (ProtoSchema.mk [Sample.legacy]))
    = (Ok schema, tfm')
    /\ tfm' <> TensorflowMetadata.mk (ProtoSchema.mk [Sample.legacy])
    /\ ProtoSchema.feature (TensorflowMetadata.proto_schema tfm') = [g]
    /\ Annotation.extra_metadata (Feature.annotation Sample.legacy)
       = ExtraList
           [Entry.mk (VDict [("is_list", VBool true);
                             ("is_ragged", VBool false);
                             ("num_buckets", VInt 10)])]
    /\ Annotation.extra_metadata (Feature.annotation g)
       = ExtraList
           [Entry.mk (VDict [("num_buckets", VInt 10);
                             ("domain", Sample.bounds 0 9)])].
Proof.
  eexists _, _, _. split; [reflexivity|].
  split; [discriminate|]. repeat split.
Qed.

(** ** More facts about dictionaries *)

Section DictFactsMore.
Context {V : Type}.
Implicit Types (k key : string) (d : pydict V).

Lemma dict_get_None_keys k d : Dict.get k d = None <-> ~ In k (Dict.keys d).
Proof.
  unfold Dict.keys. induction d as [|[k0 v0] d IH]; simpl.
  - tauto.
  - destruct (String.eqb_spec k k0) as [->|N].
    + split; [discriminate|]. intros H. destruct H. now left.
    + rewrite IH. split; intros H; [intros [E|E]; [congruence|tauto]|tauto].
Qed.

Lemma dict_get_without_same key d : Dict.get key (Dict.without key d) = None.
Proof.
  unfold Dict.without. induction d as [|[k0 v0] d IH]; simpl; auto.
  destruct (String.eqb_spec k0 key) as [->|N]; simpl; auto.
  destruct (String.eqb_spec key k0); [congruence|assumption].
Qed.

Lemma dict_keys_set k k' (v : V) d :
  In k (Dict.keys (Dict.set k' v d)) <-> k = k' \/ In k (Dict.keys d).
Proof.
  unfold Dict.keys. induction d as [|[k0 v0] d IH]; simpl.
  - intuition congruence.
  - destruct (String.eqb_spec k' k0) as [->|N]; simpl.
    + intuition congruence.
    + rewrite IH. intuition congruence.
Qed.

Lemma dict_NoDup_set k (v : V) d :
  NoDup (Dict.keys d) -> NoDup (Dict.keys (Dict.set k v d)).
Proof.
  unfold Dict.keys. induction d as [|[k0 v0] d IH]; simpl; intros H.
  - repeat constructor. intros [].
  - inversion H as [|? ? Hn Hd]; subst.
    destruct (String.eqb_spec k k0) as [->|N]; simpl.
    + now constructor.
    + constructor; [|auto]. intros Hin.
      apply (dict_keys_set k0 k v d) in Hin. destruct Hin; [congruence|tauto].
Qed.

Lemma dict_keys_remove k k' d :
  In k (Dict.keys (Dict.remove k' d)) -> In k (Dict.keys d).
Proof.
  unfold Dict.keys. induction d as [|[k0 v0] d IH]; simpl; auto.
  destruct (String.eqb k' k0); simpl; tauto.
Qed.

Lemma dict_NoDup_remove k d :
  NoDup (Dict.keys d) -> NoDup (Dict.keys (Dict.remove k d)).
Proof.
  unfold Dict.keys. induction d as [|[k0 v0] d IH]; simpl; intros H; auto.
  inversion H as [|? ? Hn Hd]; subst.
  destruct (String.eqb k k0); simpl; auto.
  constructor; auto. intros Hin. apply Hn. now apply dict_keys_remove in Hin.
Qed.

Lemma dict_get_remove_same k d :
  NoDup (Dict.keys d) -> Dict.get k (Dict.remove k d) = None.
Proof.
  unfold Dict.keys. induction d as [|[k0 v0] d IH]; simpl; intros H; auto.
  inversion H as [|? ? Hn Hd]; subst.
  destruct (String.eqb_spec k k0) as [->|N]; simpl.
  - now apply dict_get_None_keys.
  - destruct (String.eqb_spec k k0); [congruence|auto].
Qed.

End DictFactsMore.

(** ** Further properties of the forward direction *)

Section ForwardMore.
Context {Tags : Type} {tags_enum : TagsEnum Tags}.
Context {bytes : Type} {codec : StructCodec bytes}.
Implicit Types (c : ColumnSchema.t Tags) (f : Feature.t bytes).

Lemma mapM_err_inv {A B} (g : A -> result B) l : forall e,
  mapM g l = Err e ->
  exists pre a post,
    l = (pre ++ a :: post)%list
    /\ Forall (fun a => exists b, g a = Ok b) pre
    /\ g a = Err e.
Proof.
  induction l as [|a l IH]; simpl; intros e H; [discriminate|].
  destruct (g a) as [b|e'] eqn:E; cbn [rbind] in H.
  - destruct (mapM g l) as [bs|e''] eqn:M; cbn [rbind] in H; [discriminate|].
    injection H as ->.
    destruct (IH _ eq_refl) as (pre & x & post & -> & Hpre & Hx).
    exists (a :: pre), x, post. repeat split; auto.
    constructor; eauto.
  - injection H as ->. exists [], a, l. repeat split; auto.
Qed.

(** What [set_feature_domain] makes of a fresh feature. *)
Lemma set_feature_domain_new c f1 :
  set_feature_domain (Feature.new (ColumnSchema.name c)) c = Ok f1 ->
  match dtype_family c with
  | Some INT =>
      Feature.type f1 = INT /\ Feature.float_domain f1 = None
      /\ (Feature.int_domain f1 = None
          \/ exists d, Feature.int_domain f1 = Some d
                       /\ IntDomain.name d = ColumnSchema.name c)
  | Some FLOAT =>
      Feature.type f1 = FLOAT /\ Feature.int_domain f1 = None
      /\ (Feature.float_domain f1 = None
          \/ exists d, Feature.float_domain f1 = Some d
                       /\ FloatDomain.name d = ColumnSchema.name c)
  | _ =>
      Feature.type f1 = UNDEFINED /\ Feature.int_domain f1 = None
      /\ Feature.float_domain f1 = None
  end.
Proof.
  destruct (dtype_family c) as [t|] eqn:F.
  - destruct (dtype_family_cases _ F); subst t.
    + rewrite set_feature_domain_int by assumption.
      destruct (pb_int_domain c) as [[m|]|] eqn:E; simpl; try discriminate;
        intros H; injection H as <-; simpl; auto.
      destruct (pb_int_domain_Some _ E) as (dom & _ & ->). simpl. eauto 6.
    + rewrite set_feature_domain_float by assumption.
      destruct (pb_float_domain c) as [[m|]|] eqn:E; simpl; try discriminate;
        intros H; injection H as <-; simpl; auto.
      destruct (pb_float_domain_Some _ E) as (dom & _ & ->). simpl. eauto 6.
  - unfold dtype_family in F. destruct (_dtype_name c) eqn:N.
    + rewrite (set_feature_domain_other _ _ N F).
      intros H. injection H as <-. simpl. auto.
    + unfold set_feature_domain. rewrite N. discriminate.
Qed.


(** X2: [from_merlin_schema] fails exactly when some column is refused
    while those before it convert, and then with the error of that
    column. *)
Theorem from_merlin_schema_first_error (schema : MerlinSchema.t Tags) e :
  from_merlin_schema (bytes:=bytes) schema = Err e <->
  exists pre k c post,
    MerlinSchema.column_schemas schema = (pre ++ (k, c) :: post)%list
    /\ Forall (fun kc => exists g, pb_feature (bytes:=bytes) (snd kc) = Ok g) pre
    /\ pb_feature (bytes:=bytes) c = Err e.
Proof.
  unfold from_merlin_schema. split.
  - destruct (mapM pb_feature (map snd (MerlinSchema.column_schemas schema)))
      as [fs|e'] eqn:M; cbn [rbind]; [discriminate|].
    intros H. injection H as ->.
    destruct (mapM_err_inv _ _ M) as (pre & c & post & Hl & Hpre & Hc).
    apply map_eq_app in Hl. destruct Hl as (l1 & l2 & Hcols & <- & Hl2).
    destruct l2 as [|[k c'] l2]; [discriminate|].
    simpl in Hl2. injection Hl2 as <- <-.
    exists l1, k, c', l2. repeat split; auto.
    apply Forall_forall. intros kc Hin. rewrite Forall_forall in Hpre.
    apply Hpre. now apply in_map.
  - intros (pre & k & c & post & -> & Hpre & Hc).
    rewrite map_app. cbn [map snd].
    erewrite mapM_err; [reflexivity| |exact Hc].
    apply Forall_forall. intros x Hx. apply in_map_iff in Hx.
    destruct Hx as (kc & <- & Hin).
    rewrite Forall_forall in Hpre. now apply Hpre.
Qed.

(** X3: in a feature that [pb_feature] returns, the domain is of the kind
    of the type and bears the name of the feature; there is never a domain
    of each kind, and the type is [INT], [FLOAT] or left unset. *)
Theorem pb_feature_domain_of_type c g :
  pb_feature c = Ok g ->
  Feature.name g = ColumnSchema.name c
  /\ (forall d, Feature.int_domain g = Some d ->
        Feature.type g = INT /\ IntDomain.name d = Feature.name g)
  /\ (forall d, Feature.float_domain g = Some d ->
        Feature.type g = FLOAT /\ FloatDomain.name d = Feature.name g)
  /\ (Feature.int_domain g = None \/ Feature.float_domain g = None)
  /\ (dtype_family c = Some (Feature.type g)
      \/ dtype_family c = None /\ Feature.type g = UNDEFINED).
Proof.
  intros P. destruct (pb_feature_inv _ P) as (f1 & D & Hn & Ht & Hi & Hf & _).
  apply set_feature_domain_new in D.
  rewrite Hn, Ht, Hi, Hf.
  destruct (dtype_family c) as [[]|] eqn:F;
    try (destruct (dtype_family_cases _ F); discriminate);
    destruct D as (T & E1 & E2); rewrite T.
  - (* INT *)
    split; [reflexivity|]. split; [|split; [|split]].
    + intros d Hd. destruct E2 as [E2|(d' & E2 & Hname)]; rewrite E2 in Hd;
        [discriminate|]. injection Hd as <-. auto.
    + intros d Hd. rewrite E1 in Hd. discriminate.
    + now right.
    + now left.
  - (* FLOAT *)
    split; [reflexivity|]. split; [|split; [|split]].
    + intros d Hd. rewrite E1 in Hd. discriminate.
    + intros d Hd. destruct E2 as [E2|(d' & E2 & Hname)]; rewrite E2 in Hd;
        [discriminate|]. injection Hd as <-. auto.
    + now left.
    + now left.
  - (* no family *)
    split; [reflexivity|]. split; [|split; [|split]].
    + intros d Hd. rewrite E1 in Hd. discriminate.
    + intros d Hd. rewrite E2 in Hd. discriminate.
    + now left.
    + now right.
Qed.

(** X4: a feature that [pb_feature] returns has a shape or a value count
    only for a list column, and then exactly one of them: a fixed shape,
    whose length is never a false value such as zero, or a value count,
    which is the one from 0 to 0 or has two true bounds. *)
Theorem pb_feature_shape_or_count c g :
  pb_feature c = Ok g ->
  (truthy (ColumnSchema._is_list c) = false ->
   Feature.shape g = None /\ Feature.value_count g = None)
  /\ (truthy (ColumnSchema._is_list c) = true ->
      (exists s, Feature.shape g = Some s
                 /\ Feature.value_count g = None
                 /\ truthy (FixedShape.dim s) = true)
      \/ (exists v, Feature.shape g = None
                    /\ Feature.value_count g = Some v
                    /\ (v = ValueCount.mk (VInt 0) (VInt 0)
                        \/ truthy (ValueCount.min v) = true
                           /\ truthy (ValueCount.max v) = true))).
Proof.
  unfold pb_feature. intros P.
  destruct (set_feature_domain (Feature.new (ColumnSchema.name c)) c)
    as [f1|] eqn:D; [|discriminate].
  destruct (set_feature_domain_frame _ _ D) as (_ & Hs & Hv & _).
  simpl in Hs, Hv. cbn [rbind] in P. unfold and3, rbind in P.
  split_hyps; injection P as <-; simpl; rewrite ?Hs, ?Hv;
    (split; [intros; try discriminate; auto|intros Hl]);
    try discriminate; eauto 10.
Qed.

(** X6: the dict that [pb_extra_metadata] packs never has the domain, has
    both flags of the column, whatever the properties say under these
    keys, and has every other property as it was. *)
Theorem pb_extra_metadata_payload c :
  exists d,
    pb_extra_metadata c = Any.mk Struct_type_url (Struct_pack d)
    /\ Dict.get "domain" d = None
    /\ Dict.get "is_list" d = Some (ColumnSchema._is_list c)
    /\ Dict.get "is_ragged" d = Some (ColumnSchema._is_ragged c)
    /\ forall k,
         k <> "domain" -> k <> "is_list" -> k <> "is_ragged" ->
         Dict.get k d = Dict.get k (ColumnSchema.properties c).
Proof.
  exists (extra_properties c). unfold extra_properties.
  split; [reflexivity|]. repeat split.
  - rewrite !dict_get_set_neq by discriminate. apply dict_get_without_same.
  - rewrite dict_get_set_neq by discriminate. apply dict_get_set_eq.
  - apply dict_get_set_eq.
  - intros k N1 N2 N3. rewrite !dict_get_set_neq by assumption.
    now apply dict_get_without_neq.
Qed.

End ForwardMore.

(** ** Further properties of the reverse direction *)

Section ReverseMore.
Context {Tags : Type} {tags_enum : TagsEnum Tags}.
Context {bytes : Type} {codec : StructCodec bytes}.
Implicit Types (c : ColumnSchema.t Tags) (f : Feature.t bytes).

Lemma to_merlin_schema_loop_inv fs : forall (acc schema : MerlinSchema.t Tags),
  fst (to_merlin_schema_loop fs acc) = Ok schema ->
  exists cs,
    Forall2 (fun f c => fst (merlin_column f) = Ok c) fs cs
    /\ schema = fold_left add_column cs acc.
Proof.
  induction fs as [|f fs IH]; intros acc schema; simpl.
  - intros H. injection H as <-. exists []. split; [constructor|reflexivity].
  - destruct (merlin_column f) as [[c|e] f'] eqn:M; [|discriminate].
    destruct (to_merlin_schema_loop fs _) as [r rest] eqn:L. simpl.
    intros ->.
    destruct (IH (add_column acc c) schema) as (cs & Hcs & ->).
    { unfold add_column. now rewrite L. }
    exists (c :: cs). split; [|reflexivity].
    constructor; [now rewrite M|assumption].
Qed.

Lemma to_merlin_schema_loop_err_inv fs : forall (acc : MerlinSchema.t Tags) e,
  fst (to_merlin_schema_loop fs acc) = Err e ->
  exists pre f post,
    fs = (pre ++ f :: post)%list
    /\ Forall (fun g => exists c : ColumnSchema.t Tags,
                 fst (merlin_column g) = Ok c) pre
    /\ fst (merlin_column (Tags:=Tags) f) = Err e.
Proof.
  induction fs as [|f fs IH]; intros acc e; simpl; [discriminate|].
  destruct (merlin_column f) as [[c|e'] f'] eqn:M.
  - destruct (to_merlin_schema_loop fs _) as [r rest] eqn:L. simpl.
    intros ->.
    destruct (IH (add_column acc c) e) as (pre & g & post & -> & Hpre & Hg).
    { unfold add_column. now rewrite L. }
    exists (f :: pre), g, post. repeat split; auto.
    constructor; [|assumption]. exists c. now rewrite M.
  - simpl. intros H. injection H as ->.
    exists [], f, fs. repeat split; auto. now rewrite M.
Qed.

Lemma Forall2_In_l {A B} (R : A -> B -> Prop) l l' a :
  Forall2 R l l' -> In a l -> exists b, In b l' /\ R a b.
Proof.
  induction 1 as [|x y l l' Hxy _ IH]; simpl; [tauto|].
  intros [->|Hin]; [eauto|]. destruct (IH Hin) as (b & Hb & Hr). eauto.
Qed.

Lemma Forall2_In_r {A B} (R : A -> B -> Prop) l l' b :
  Forall2 R l l' -> In b l' -> exists a, In a l /\ R a b.
Proof.
  induction 1 as [|x y l l' Hxy _ IH]; simpl; [tauto|].
  intros [->|Hin]; [eauto|]. destruct (IH Hin) as (a & Ha & Hr). eauto.
Qed.

Lemma add_column_wf (acc : MerlinSchema.t Tags) c :
  schema_wf acc -> schema_wf (add_column acc c).
Proof.
  intros [Hnd Hk]. split; simpl.
  - now apply dict_NoDup_set.
  - clear Hnd. induction (MerlinSchema.column_schemas acc) as [|[k0 v0] d IH];
      simpl.
    + repeat constructor.
    + inversion Hk; subst.
      destruct (String.eqb_spec (ColumnSchema.name c) k0) as [<-|N];
        constructor; auto.
Qed.

Lemma fold_add_column_wf cs : forall acc : MerlinSchema.t Tags,
  schema_wf acc -> schema_wf (fold_left add_column cs acc).
Proof.
  induction cs as [|c cs IH]; intros acc H; simpl; auto.
  apply IH. now apply add_column_wf.
Qed.

Lemma fold_add_column_keys cs : forall (acc : MerlinSchema.t Tags) k,
  In k (Dict.keys (MerlinSchema.column_schemas (fold_left add_column cs acc)))
  <-> In k (Dict.keys (MerlinSchema.column_schemas acc))
      \/ exists c, In c cs /\ ColumnSchema.name c = k.
Proof.
  induction cs as [|c cs IH]; intros acc k; simpl.
  - split; [auto|]. intros [H|(c & [] & _)]. exact H.
  - rewrite IH. simpl. rewrite dict_keys_set. split.
    + intros [[->|H]|(c' & Hin & Hn)]; eauto.
    + intros [H|(c' & [->|Hin] & Hn)]; eauto.
Qed.

(** X7: the domain read off a feature is empty or holds exactly ["min"]
    and ["max"]; it is not empty exactly for an [INT] feature with an
    [int_domain] and a [FLOAT] feature with a [float_domain], so a domain
    beside a type of the other kind is ignored. *)
Theorem merlin_domain_cases f :
  (merlin_domain f = []
   \/ exists lo hi, merlin_domain f = [("min", lo); ("max", hi)])
  /\ (merlin_domain f <> [] <->
      Feature.type f = INT /\ Feature.int_domain f <> None
      \/ Feature.type f = FLOAT /\ Feature.float_domain f <> None).
Proof.
  unfold merlin_domain, getattr.
  destruct (Feature.type f); simpl;
    try (split; [now left|]; split;
         [intros H; now destruct H
         |intros [[H _]|[H _]]; discriminate]).
  - destruct (Feature.int_domain f) as [d|]; simpl.
    + split; [right; eauto|]. split; [intros _; left; split; congruence
                                     |discriminate].
    + split; [now left|]. split; [intros H; now destruct H|].
      intros [[_ H]|[H _]]; [now destruct H|discriminate].
  - destruct (Feature.float_domain f) as [d|]; simpl.
    + split; [right; eauto|]. split; [intros _; right; split; congruence
                                     |discriminate].
    + split; [now left|]. split; [intros H; now destruct H|].
      intros [[H _]|[_ H]]; [discriminate|now destruct H].
Qed.

(** X8: the schema [to_merlin_schema] returns is keyed by the names of its
    columns, each key once, and its keys are the names of the features. *)
Theorem to_merlin_schema_keys (tfm : TensorflowMetadata.t bytes)
    (schema : MerlinSchema.t Tags) :
  fst (to_merlin_schema tfm) = Ok schema ->
  schema_wf schema
  /\ forall k,
       In k (Dict.keys (MerlinSchema.column_schemas schema)) <->
       exists g,
         In g (ProtoSchema.feature (TensorflowMetadata.proto_schema tfm))
         /\ Feature.name g = k.
Proof.
  unfold to_merlin_schema.
  destruct (to_merlin_schema_loop _ _) as [r rest] eqn:L. simpl. intros ->.
  destruct (to_merlin_schema_loop_inv
              (ProtoSchema.feature (TensorflowMetadata.proto_schema tfm))
              (MerlinSchema.mk []) (schema := schema)) as (cs & Hcs & ->).
  { now rewrite L. }
  split.
  - apply fold_add_column_wf. split; simpl; constructor.
  - intros k. rewrite fold_add_column_keys. simpl. split.
    + intros [[]|(c & Hin & Hn)].
      destruct (Forall2_In_r _ Hcs Hin) as (g & Hg & Hc).
      exists g. split; [assumption|].
      now rewrite <- (merlin_column_name _ Hc).
    + intros (g & Hin & Hn). right.
      destruct (Forall2_In_l _ Hcs Hin) as (c & Hc & Hg).
      exists c. split; [assumption|].
      now rewrite (merlin_column_name _ Hg).
Qed.

End ReverseMore.

Section ReverseErrors.
Context {Tags : Type} {tags_enum : TagsEnum Tags}.
Context {bytes : Type} {codec : StructCodec bytes}.
Implicit Types (c : ColumnSchema.t Tags) (f : Feature.t bytes).

(** X11: in the older form, with a single entry whose value is a dict,
    [merlin_column] works on that dict itself: the column is the one of
    its items, and afterwards the entry of the feature holds the properties
    of the column, without the flags and with the domain. *)
Theorem merlin_column_single_entry f e d :
  Annotation.extra_metadata (Feature.annotation f) = ExtraList [e] ->
  Entry.value e = VDict d ->
  let c := column_of (Tags:=Tags) f (with_domain f d) in
  merlin_column f
  = (Ok c, set_entry_value f (VDict (ColumnSchema.properties c))).
Proof.
  intros E V. cbv zeta.
  unfold merlin_column, merlin_properties, sbind, sget, sret, setitem, pop,
    store, with_domain, column_of.
  rewrite E, V. cbn [length Nat.ltb Nat.leb ref_of].
  destruct (truthy (VDict (merlin_domain f)));
    cbn [shared items Dict.pop fst snd ColumnSchema.properties];
    unfold set_entry_value; cbn; rewrite E; cbn; reflexivity.
Qed.

(** X12: with a single entry whose value is no dict, [merlin_column]
    raises and leaves the feature as it was: a [TypeError] when there is a
    domain to store or the value is a list, an [AttributeError]
    otherwise. *)
Theorem merlin_column_entry_not_dict f e :
  Annotation.extra_metadata (Feature.annotation f) = ExtraList [e] ->
  (forall d, Entry.value e <> VDict d) ->
  merlin_column (Tags:=Tags) f
  = (Err (Builtin
            (if truthy (VDict (merlin_domain f)) then TypeError
             else match Entry.value e with
                  | VList _ => TypeError
                  | _ => AttributeError
                  end)),
     f).
Proof.
  intros E V.
  unfold merlin_column, merlin_properties, sbind, sget, sret, sraise,
    setitem, pop.
  rewrite E. cbn [length Nat.ltb Nat.leb].
  destruct (Entry.value e) as [| | | | |d] eqn:Ev;
    try (destruct (truthy (VDict (merlin_domain f))); reflexivity).
  now destruct (V d).
Qed.

(** X13: [to_merlin_schema] fails exactly when some feature is refused
    while those before it convert, and then with the error of that
    feature. *)
Theorem to_merlin_schema_first_error (tfm : TensorflowMetadata.t bytes) e :
  fst (to_merlin_schema (Tags:=Tags) tfm) = Err e <->
  exists pre g post,
    ProtoSchema.feature (TensorflowMetadata.proto_schema tfm)
    = (pre ++ g :: post)%list
    /\ Forall (fun h => exists c : ColumnSchema.t Tags,
                 fst (merlin_column h) = Ok c) pre
    /\ fst (merlin_column (Tags:=Tags) g) = Err e.
Proof.
  unfold to_merlin_schema. split.
  - destruct (to_merlin_schema_loop _ _) as [r rest] eqn:L. simpl. intros ->.
    eapply to_merlin_schema_loop_err_inv. now rewrite L.
  - intros (pre & g & post & -> & Hpre & Hg).
    assert (exists cs : list (ColumnSchema.t Tags),
              Forall2 (fun h c => fst (merlin_column h) = Ok c) pre cs)
      as [cs Hcs].
    { clear -Hpre. induction Hpre as [|h l [c Hc] _ [cs IH]].
      - exists []. constructor.
      - exists (c :: cs). now constructor. }
    pose proof (@to_merlin_schema_loop_err _ _ _ pre g post _ cs
                  (MerlinSchema.mk []) Hcs Hg) as L.
    destruct (to_merlin_schema_loop _ _) as [r rest]. exact L.
Qed.

(** X14: [to_merlin_schema] leaves a schema that [from_merlin_schema]
    built as it is, whether it succeeds or not. *)
Theorem to_merlin_schema_keeps_converted (schema : MerlinSchema.t Tags)
    (tfm : TensorflowMetadata.t bytes) :
  from_merlin_schema schema = Ok tfm ->
  snd (to_merlin_schema (Tags:=Tags) tfm) = tfm.
Proof.
  unfold from_merlin_schema.
  destruct (mapM pb_feature (map snd (MerlinSchema.column_schemas schema)))
    as [fs|] eqn:M; [|discriminate].
  cbn [rbind]. intros H. injection H as <-.
  apply to_merlin_schema_frame_Any. simpl.
  apply mapM_Forall2 in M. revert M.
  generalize (map snd (MerlinSchema.column_schemas schema)) as cols.
  intros cols M. induction M as [|c g l l' P _ IH]; constructor; auto.
  destruct (pb_feature_inv _ P) as (f1 & _ & _ & _ & _ & _ & Ha).
  rewrite Ha. simpl. eauto.
Qed.

End ReverseErrors.


(** ** The extension payload on the way back *)

Section PayloadFacts.
Context {Tags : Type} {tags_enum : TagsEnum Tags}.
Context {bytes : Type} {codec : StructCodec bytes}.
Implicit Types (c : ColumnSchema.t Tags) (f : Feature.t bytes).

(** A feature built from a column has no domain to read when the column has
    no family or no domain. *)
Lemma pb_feature_merlin_domain_none c g :
  pb_feature c = Ok g ->
  dtype_family c = None
  \/ Dict.get_default "domain" VNone (ColumnSchema.properties c) = VNone ->
  merlin_domain g = [].
Proof.
  intros P H.
  destruct (pb_feature_inv _ P) as (f1 & D & _ & Ht & Hi & Hf & _).
  unfold merlin_domain, getattr. rewrite Ht, Hi, Hf.
  destruct (dtype_family c) as [t|] eqn:F.
  - destruct H as [H|G]; [discriminate|].
    destruct (dtype_family_cases _ F); subst t.
    + rewrite set_feature_domain_int in D by assumption.
      unfold pb_int_domain in D. rewrite G in D. simpl in D.
      injection D as <-. reflexivity.
    + rewrite set_feature_domain_float in D by assumption.
      unfold pb_float_domain in D. rewrite G in D. simpl in D.
      injection D as <-. reflexivity.
  - apply set_feature_domain_new in D. rewrite F in D.
    destruct D as (-> & _). reflexivity.
Qed.

(** The domain of a typed column that converts is missing, [None] or a
    dict. *)
Lemma pb_feature_domain_ok c g t :
  pb_feature c = Ok g -> dtype_family c = Some t -> domain_ok c = true.
Proof.
  intros P F. destruct (pb_feature_inv _ P) as (f1 & D & _).
  unfold domain_ok.
  destruct (dtype_family_cases _ F); subst t;
    [rewrite set_feature_domain_int in D by assumption;
     unfold pb_int_domain in D
    |rewrite set_feature_domain_float in D by assumption;
     unfold pb_float_domain in D];
    destruct (Dict.get_default "domain" VNone (ColumnSchema.properties c));
    simpl in D; try discriminate; reflexivity.
Qed.

Lemma with_domain_NoDup f d :
  NoDup (Dict.keys d) -> NoDup (Dict.keys (with_domain f d)).
Proof.
  intros H. unfold with_domain.
  destruct (truthy _); [now apply dict_NoDup_set|assumption].
Qed.

(** The feature of a column comes back as the column of whatever the codec
    returns for the packed properties. *)
Lemma pb_feature_column_of c g d' :
  pb_feature c = Ok g ->
  Struct_unpack (Any.value (pb_extra_metadata c)) = Ok d' ->
  merlin_column (Tags:=Tags) g = (Ok (column_of g (with_domain g d')), g).
Proof.
  intros P U.
  destruct (pb_feature_inv _ P) as (f1 & _ & _ & _ & _ & _ & Ha).
  apply merlin_column_Any with (a := pb_extra_metadata c); [|exact U].
  now rewrite Ha.
Qed.





(** X15: a column converted by [pb_feature] and back by [merlin_column],
    seen from the items that the codec returns for its payload, when their
    keys are distinct.  The flags of the column that comes back are the
    items under [is_list] and [is_ragged], [False] where there is none; its
    properties have distinct keys and neither of the flag keys; its domain
    is the pair of the original bounds for a typed column with a dict for
    domain, and the item of the payload under [domain] in every other case;
    every other property is the item of the payload under its key. *)
Theorem merlin_column_of_payload c g d' c' :
  pb_feature c = Ok g ->
  Struct_unpack (Any.value (pb_extra_metadata c)) = Ok d' ->
  NoDup (Dict.keys d') ->
  fst (merlin_column g) = Ok c' ->
  ColumnSchema._is_list c' = Dict.get_default "is_list" (VBool false) d'
  /\ ColumnSchema._is_ragged c' = Dict.get_default "is_ragged" (VBool false) d'
  /\ NoDup (Dict.keys (ColumnSchema.properties c'))
  /\ Dict.get "is_list" (ColumnSchema.properties c') = None
  /\ Dict.get "is_ragged" (ColumnSchema.properties c') = None
  /\ Dict.get "domain" (ColumnSchema.properties c')
     = match dtype_family c,
             Dict.get_default "domain" VNone (ColumnSchema.properties c) with
       | Some _, VDict dom =>
           Some (VDict [("min", Dict.get_default "min" VNone dom);
                        ("max", Dict.get_default "max" VNone dom)])
       | _, _ => Dict.get "domain" d'
       end
  /\ forall k,
       k <> "domain" -> k <> "is_list" -> k <> "is_ragged" ->
       Dict.get k (ColumnSchema.properties c') = Dict.get k d'.
Proof.
  intros P U Hnd M.
  rewrite (pb_feature_column_of _ P U) in M. injection M as <-.
  pose proof (with_domain_NoDup g _ Hnd) as Hw.
  unfold column_of. cbn [ColumnSchema.properties ColumnSchema._is_list
                         ColumnSchema._is_ragged].
  split; [|split; [|split; [|split; [|split; [|split]]]]].
  - unfold Dict.get_default. rewrite with_domain_get_other by discriminate.
    reflexivity.
  - unfold Dict.get_default. rewrite dict_get_remove_neq by discriminate.
    rewrite with_domain_get_other by discriminate. reflexivity.
  - now apply dict_NoDup_remove, dict_NoDup_remove.
  - rewrite dict_get_remove_neq by discriminate.
    now apply dict_get_remove_same.
  - apply dict_get_remove_same. now apply dict_NoDup_remove.
  - rewrite !dict_get_remove_neq by discriminate.
    assert (merlin_domain g = [] ->
            Dict.get "domain" (with_domain g d') = Dict.get "domain" d')
      as Hnone by (intros E; unfold with_domain; rewrite E; reflexivity).
    destruct (dtype_family c) as [t|] eqn:F.
    + pose proof (pb_feature_domain_ok _ P F) as Hok. unfold domain_ok in Hok.
      destruct (Dict.get_default "domain" VNone (ColumnSchema.properties c))
        as [| | | | |dom] eqn:G; try discriminate.
      * apply Hnone. apply (pb_feature_merlin_domain_none _ P). now right.
      * assert (Dict.get "domain" (ColumnSchema.properties c) = Some (VDict dom))
          as G'.
        { unfold Dict.get_default in G.
          destruct (Dict.get "domain" (ColumnSchema.properties c));
            [now subst|discriminate]. }
        unfold with_domain. rewrite (pb_feature_merlin_domain _ P F G').
        cbn [truthy]. apply dict_get_set_eq.
    + apply Hnone. apply (pb_feature_merlin_domain_none _ P). now left.
  - intros k N1 N2 N3. rewrite !dict_get_remove_neq by assumption.
    now apply with_domain_get_other.
Qed.

End PayloadFacts.

(** ** The further properties on the sample schemas *)


(** X3 on the list column of ids. *)
Lemma pb_feature_domain_of_type_witness :
  exists g : Feature.t (pydict value),
    pb_feature Sample.item_ids = Ok g
    /\ Feature.name g = "item_ids"
    /\ (Feature.int_domain g = None \/ Feature.float_domain g = None).
Proof.
  eexists. split; [reflexivity|].
  destruct (pb_feature_domain_of_type (bytes:=pydict value) Sample.item_ids
              eq_refl) as (Hn & _ & _ & H & _).
  split; [exact Hn|exact H].
Defined.

(** X4 on the same column. *)
Lemma pb_feature_shape_or_count_witness :
  exists g : Feature.t (pydict value),
    pb_feature Sample.item_ids = Ok g
    /\ ((exists s, Feature.shape g = Some s
                   /\ Feature.value_count g = None
                   /\ truthy (FixedShape.dim s) = true)
        \/ (exists v, Feature.shape g = None
                      /\ Feature.value_count g = Some v
                      /\ (v = ValueCount.mk (VInt 0) (VInt 0)
                          \/ truthy (ValueCount.min v) = true
                             /\ truthy (ValueCount.max v) = true))).
Proof.
  eexists. split; [reflexivity|].
  exact (proj2 (pb_feature_shape_or_count (bytes:=pydict value)
                  Sample.item_ids eq_refl) eq_refl).
Defined.

(** X8 on four features, two of them of one name. *)
Lemma to_merlin_schema_keys_witness :
  exists schema : MerlinSchema.t Sample.Tags,
    fst (to_merlin_schema
           (TensorflowMetadata.mk
              (ProtoSchema.mk
                 [Sample.twice 1; Sample.legacy_plain; Sample.twice 2;
                  Sample.bare])))
    = Ok schema
    /\ schema_wf schema
    /\ Dict.keys (MerlinSchema.column_schemas schema)
       = ["twice"; "legacy_plain"; "bare"].
Proof.
  eexists. split; [reflexivity|]. split; [|reflexivity].
  exact (proj1 (to_merlin_schema_keys (Tags:=Sample.Tags)
                  (TensorflowMetadata.mk
                     (ProtoSchema.mk
                        [Sample.twice 1; Sample.legacy_plain; Sample.twice 2;
                         Sample.bare]))
                  eq_refl)).
Defined.

(** X11 on the feature in the older form: its entry ends up with the
    properties of the column. *)
Lemma merlin_column_single_entry_witness :
  exists c : ColumnSchema.t Sample.Tags,
    merlin_column Sample.legacy
    = (Ok c, set_entry_value Sample.legacy (VDict (ColumnSchema.properties c)))
    /\ ColumnSchema.properties c
       = [("num_buckets", VInt 10); ("domain", Sample.bounds 0 9)].
Proof.
  eexists. split.
  - exact (merlin_column_single_entry (Tags:=Sample.Tags) Sample.legacy
             (e := Entry.mk _) eq_refl eq_refl).
  - reflexivity.
Defined.

(** X12 on a feature whose single entry holds a string. *)
Lemma merlin_column_entry_not_dict_witness :
  merlin_column (Tags:=Sample.Tags)
    (Feature.mk (bytes:=pydict value) "raw" UNDEFINED None None None None
       (Annotation.mk [] (ExtraList [Entry.mk (VStr "payload")])))
  = (Err (Builtin AttributeError),
     Feature.mk "raw" UNDEFINED None None None None
       (Annotation.mk [] (ExtraList [Entry.mk (VStr "payload")]))).
Proof.
  apply (merlin_column_entry_not_dict (Tags:=Sample.Tags)
           (Feature.mk (bytes:=pydict value) "raw" UNDEFINED None None None None
              (Annotation.mk [] (ExtraList [Entry.mk (VStr "payload")])))
           (e := Entry.mk (VStr "payload")) eq_refl).
  intros d. discriminate.
Defined.

(** X14 on the sample schema. *)
Lemma to_merlin_schema_keeps_converted_witness :
  exists tfm : TensorflowMetadata.t (pydict value),
    from_merlin_schema Sample.schema = Ok tfm
    /\ snd (to_merlin_schema (Tags:=Sample.Tags) tfm) = tfm.
Proof.
  eexists. split; [reflexivity|].
  exact (to_merlin_schema_keeps_converted Sample.schema eq_refl).
Defined.



(** X15 on the list column of ids. *)
Lemma merlin_column_of_payload_witness :
  exists (g : Feature.t (pydict value)) (d' : pydict value)
         (c' : ColumnSchema.t Sample.Tags),
    pb_feature Sample.item_ids = Ok g
    /\ Struct_unpack (Any.value (pb_extra_metadata Sample.item_ids)) = Ok d'
    /\ NoDup (Dict.keys d')
    /\ fst (merlin_column g) = Ok c'
    /\ ColumnSchema._is_ragged c' = VBool true
    /\ Dict.get "is_ragged" (ColumnSchema.properties c') = None
    /\ Dict.get "domain" (ColumnSchema.properties c')
       = Some (Sample.bounds 0 9).
Proof.
  let r := eval vm_compute in
    (pb_feature (bytes:=pydict value) Sample.item_ids) in
  lazymatch r with
  | Ok ?g =>
      let r' := eval vm_compute in
        (fst (merlin_column (Tags:=Sample.Tags) g)) in
      let d := eval vm_compute in (extra_properties Sample.item_ids) in
      lazymatch r' with
      | Ok ?c' =>
          assert (pb_feature (bytes:=pydict value) Sample.item_ids = Ok g)
            as P by reflexivity;
          assert (Struct_unpack (Any.value (pb_extra_metadata Sample.item_ids))
                  = Ok d) as U by reflexivity;
          assert (NoDup (Dict.keys d)) as Hnd
            by (repeat constructor; simpl; intuition discriminate);
          assert (fst (merlin_column g) = Ok c') as M by reflexivity;
          exists g, d, c'
      end
  end.
  split; [exact P|]. split; [exact U|]. split; [exact Hnd|].
  split; [exact M|].
  destruct (merlin_column_of_payload (bytes:=pydict value) Sample.item_ids
              P U Hnd M) as (_ & Hr & _ & _ & Hg & Hd & _).
  split; [exact Hr|]. split; [exact Hg|exact Hd].
Defined.
